(** * Avendesora: account-file transactions and secret writers

    A shallow embedding of [avendesora/writer.py] (the TTY, clipboard and
    keyboard writers with the autotype script interpreter) and of the
    [Add.run] / [Edit.run] command handlers of [avendesora/command.py].

    Conventions.
    - A Python [str] is a [string]; a character is an [ascii] read as the
      code point of the same number (U+0000 .. U+00FF).
    - Calls into the [inform], [cursor], [time] and [shlib] packages are
      recorded, in program order, as a trace of [event]s.
    - [fatal], [err.terminate()] and uncaught exceptions end a run; the
      way it ended is kept next to the trace. *)

From Stdlib Require Import String Ascii List Arith Lia Bool DecimalString.
From stdpp Require Import base option strings gmap fin_maps.
Import ListNotations.
Local Open Scope string_scope.
Local Open Scope list_scope.

(* ===================================================================== *)
(** ** Python string primitives *)
(* ===================================================================== *)

Module Py.

Definition code (c : ascii) : nat := nat_of_ascii c.

Definition between (lo hi n : nat) : bool := Nat.leb lo n && Nat.leb n hi.

Definition chr_nl : ascii := ascii_of_nat 10.
Definition chr_tab : ascii := ascii_of_nat 9.
Definition nl : string := String chr_nl EmptyString.
Definition tab : string := String chr_tab EmptyString.
Definition dquote : string := String (ascii_of_nat 34) EmptyString.

(** [c in string.ascii_letters]. *)
Definition ascii_letter (c : ascii) : bool :=
  between 65 90 (code c) || between 97 122 (code c).

(** [str.isspace] on one character. *)
Definition isspace (c : ascii) : bool :=
  let n := code c in
  between 9 13 n || between 28 32 n || Nat.eqb n 133 || Nat.eqb n 160.

(** The class [\w] of a [str] pattern: alphanumeric or underscore. *)
Definition word_char (c : ascii) : bool :=
  let n := code c in
  between 48 57 n || between 65 90 n || between 97 122 n || Nat.eqb n 95
  || Nat.eqb n 170 || Nat.eqb n 178 || Nat.eqb n 179 || Nat.eqb n 181
  || Nat.eqb n 185 || Nat.eqb n 186 || between 188 190 n
  || between 192 214 n || between 216 246 n || between 248 255 n.

(** [str.lower] on one character. *)
Definition lower_char (c : ascii) : ascii :=
  let n := code c in
  if between 65 90 n || between 192 214 n || between 216 222 n
  then ascii_of_nat (n + 32) else c.

Definition chars (s : string) : list ascii := list_ascii_of_string s.
Definition str (l : list ascii) : string := string_of_list_ascii l.

Definition lower (s : string) : string := str (map lower_char (chars s)).

(** [''.join(parts)]. *)
Definition join (parts : list string) : string := String.concat "" parts.

(** [prefix] is a prefix of [s]: [s.startswith(prefix)]. *)
Definition startswith (s pre : string) : bool := String.prefix pre s.

Definition char_in (c : ascii) (s : string) : bool :=
  existsb (Ascii.eqb c) (chars s).

Fixpoint lstrip_by (p : ascii -> bool) (l : list ascii) : list ascii :=
  match l with
  | c :: t => if p c then lstrip_by p t else l
  | [] => []
  end.

Definition strip_by (p : ascii -> bool) (s : string) : string :=
  str (rev (lstrip_by p (rev (lstrip_by p (chars s))))).

(** [s.strip()]. *)
Definition strip (s : string) : string := strip_by isspace s.

(** [s.strip(cs)]. *)
Definition strip_chars (cs s : string) : string :=
  strip_by (fun c => char_in c cs) s.

(** [s.split(sep)] for a one-character separator. *)
Fixpoint split_on_aux (sep : ascii) (cur : list ascii) (l : list ascii)
  : list string :=
  match l with
  | [] => [str (rev cur)]
  | c :: t =>
      if Ascii.eqb c sep then str (rev cur) :: split_on_aux sep [] t
      else split_on_aux sep (c :: cur) t
  end.

Definition split_on (sep : ascii) (s : string) : list string :=
  split_on_aux sep [] (chars s).

(** [s.split()]: maximal runs of characters that are not white space. *)
Fixpoint split_ws_aux (cur : list ascii) (l : list ascii) : list string :=
  match l with
  | [] => match cur with [] => [] | _ => [str (rev cur)] end
  | c :: t =>
      if isspace c
      then match cur with
           | [] => split_ws_aux [] t
           | _ => str (rev cur) :: split_ws_aux [] t
           end
      else split_ws_aux (c :: cur) t
  end.

Definition split_ws (s : string) : list string := split_ws_aux [] (chars s).

(** [sep.join(parts)]. *)
Definition join_with (sep : string) (parts : list string) : string :=
  String.concat sep parts.

(** [x in xs] for a list of strings. *)
Definition str_in (x : string) (xs : list string) : bool :=
  existsb (String.eqb x) xs.

(** [term[1:-1]]. *)
Definition slice_1_m1 (s : string) : string :=
  match chars s with
  | [] => ""
  | _ :: t => str (removelast t)
  end.

(** [term and term[0] == a and term[-1] == b]. *)
Definition bracketed (a b : ascii) (s : string) : bool :=
  match chars s with
  | [] => false
  | c :: t => Ascii.eqb c a && Ascii.eqb (List.last t c) b
  end.

(** [str(n)] for a non-negative integer. *)
Definition str_of_nat (n : nat) : string :=
  NilEmpty.string_of_uint (Nat.to_uint n).

End Py.

(* ===================================================================== *)
(** ** Effects: traces, exceptions and early exits *)
(* ===================================================================== *)

Module Eff.

(** Argument of [time.sleep]: a number of seconds, or the constant
    [INITIAL_AUTOTYPE_DELAY] of [preferences.py]. *)
Inductive duration :=
| Seconds (n : nat)
| INITIAL_AUTOTYPE_DELAY.

(** The two kinds of Python value that reach [time.sleep]. *)
Inductive pyval :=
| PNum (d : duration)
| PStr (s : string).

Inductive event :=
| Log (args : list string)                       (* inform.log *)
| Warn (msg : string) (culprit : option string)  (* inform.warn *)
| Err (msg : string) (culprit : option string)   (* inform.error *)
| Output (text : string)                         (* inform.output *)
| Codicil (lines : list string)                  (* inform.codicil *)
| Query (prompt : string)                        (* input / query_user *)
| CursorWrite (text : string)                    (* cursor.write *)
| CursorClear                                    (* cursor.clear *)
| Sleep (d : duration)                           (* time.sleep, completed *)
| Print (text : string)                          (* print *)
| Editor (path : string)                         (* GenericEditor.open *)
| Backup (path : string)                         (* PythonFile.backup *)
| Restore (path : string)                        (* PythonFile.restore *)
| Save (path : string)                           (* GnuPG/PythonFile.save *)
| Remove (path : string)                         (* GnuPG.remove *)
| Run (argv : list string) (stdin : option string). (* shlib.Run *)

Inductive exn :=
| NameError (name : string)
| TypeError
| AssertionError
| KeyboardInterrupt.

(** How a run ends when it does not return. *)
Inductive stop :=
| Fatal (msg culprit : string)   (* inform.fatal: report, then exit *)
| Terminate (err : string)       (* inform.Error.terminate *)
| Uncaught (e : exn).

Definition M (A : Type) : Type := list event * (A + stop).

Definition ret {A} (a : A) : M A := ([], inl a).

Definition bind {A B} (m : M A) (f : A -> M B) : M B :=
  match m with
  | (t, inl a) => let (t', r) := f a in (t ++ t', r)
  | (t, inr s) => (t, inr s)
  end.

Definition emit (e : event) : M unit := ([e], inl tt).
Definition halt {A} (s : stop) : M A := ([], inr s).
Definition raise {A} (e : exn) : M A := halt (Uncaught e).

(** [try: m except <the exceptions h accepts>: h e]. *)
Definition catch {A} (m : M A) (h : exn -> option (M A)) : M A :=
  match m with
  | (t, inr (Uncaught e)) =>
      match h e with
      | Some k => let (t', r) := k in (t ++ t', r)
      | None => m
      end
  | _ => m
  end.

Definition trace {A} (m : M A) : list event := fst m.
Definition result {A} (m : M A) : A + stop := snd m.

(** [assert b]. *)
Definition assert (b : bool) : M unit :=
  if b then ret tt else raise AssertionError.

(** [time.sleep(v)]: a [str] argument raises TypeError, whatever its
    text; [ctrl_c] tells whether the user interrupts the wait. *)
Definition time_sleep (v : pyval) (ctrl_c : bool) : M unit :=
  match v with
  | PStr _ => raise TypeError
  | PNum d => if ctrl_c then raise KeyboardInterrupt else emit (Sleep d)
  end.

(** What reaches the log sink: the arguments of the [log] calls. *)
Definition logged (t : list event) : list (list string) :=
  flat_map (fun e => match e with Log a => [a] | _ => [] end) t.

(** The commands started: the argument vectors handed to [Run]. *)
Definition ran (t : list event) : list (list string) :=
  flat_map (fun e => match e with Run a _ => [a] | _ => [] end) t.

End Eff.

Notation "'let!' x ':=' m 'in' k" := (Eff.bind m (fun x => k))
  (at level 10, x pattern, m at level 200, k at level 200).
Notation "'exec' m 'then' k" := (Eff.bind m (fun _ => k))
  (at level 10, m at level 200, k at level 200).

(* ===================================================================== *)
(** ** writer.py *)
(* ===================================================================== *)

Module Writer.
Import Py Eff.

(** *** External collaborators *)

(** The pieces of [textwrap], [str], [inform.Color] and the settings
    file the writers call. *)
Record Env := {
  dedent : string -> string;             (* textwrap.dedent *)
  indent : string -> string -> string;   (* textwrap.indent(text, prefix) *)
  upper : string -> string;              (* str.upper *)
  LabelColor : string -> string;         (* Color(...) applied to a label *)
  display_time : nat;                    (* get_setting('display_time') *)
  indent_setting : string;               (* get_setting('indent') *)
  xdotool_executable : string;           (* get_setting('xdotool_executable') *)
  xsel_executable : string               (* the 'xsel_executable' setting *)
}.

(** The second component of [account.split_name]: [None] is Python's
    [None]. *)
Definition key := option string.

(** A field value: its [str()] and the result of its [get_name()];
    [get_name = None] is a value without that method. *)
Record field_value := {
  str_of : string;
  get_name : option string
}.

Inductive fetched :=
| Value (v : field_value)
| Failed (err : string).   (* get_field raised inform.Error *)

(** The account object, as the writers use it. *)
Record Account := {
  split_name : option string -> string * key;
  combine_name : string -> key -> string;
  is_secret : string -> key -> bool;
  get_field : string -> key -> fetched;
  get_value : string -> fetched
}.

(** *** Globals *)

Definition KEYSYMS : list (ascii * string) :=
  [ ("!"%char, "exclam");
    (ascii_of_nat 34, "quotedbl");
    ("#"%char, "numbersign");
    ("$"%char, "dollar");
    ("%"%char, "percent");
    ("&"%char, "ampersand");
    ("'"%char, "apostrophe");
    ("("%char, "parenleft");
    (")"%char, "parenright");
    ("*"%char, "asterisk");
    ("+"%char, "plus");
    (","%char, "comma");
    ("-"%char, "minus");
    ("."%char, "period");
    ("/"%char, "slash");
    ("0"%char, "zero");
    ("1"%char, "one");
    ("2"%char, "two");
    ("3"%char, "three");
    ("4"%char, "four");
    ("5"%char, "five");
    ("6"%char, "six");
    ("7"%char, "seven");
    ("8"%char, "eight");
    ("9"%char, "nine");
    (" "%char, "space");
    (":"%char, "colon");
    (";"%char, "semicolon");
    ("<"%char, "less");
    ("="%char, "equal");
    (">"%char, "greater");
    ("?"%char, "question");
    ("@"%char, "at");
    ("["%char, "bracketleft");
    ("\"%char, "backslash");
    ("]"%char, "bracketright");
    ("^"%char, "asciicircum");
    ("_"%char, "underscore");
    ("`"%char, "grave");
    ("{"%char, "braceleft");
    ("|"%char, "bar");
    ("}"%char, "braceright");
    ("~"%char, "asciitilde");
    (chr_nl, "Return");
    (chr_tab, "Tab") ].

(** [KEYSYMS.get(char)]. *)
Fixpoint dict_get (d : list (ascii * string)) (c : ascii) : option string :=
  match d with
  | [] => None
  | (k, v) :: d' => if Ascii.eqb k c then Some v else dict_get d' c
  end.

(** The names bound at module level in [writer.py] (imports, globals,
    functions and classes). *)
Definition module_names : list string :=
  [ "cursor"; "get_setting"; "INITIAL_AUTOTYPE_DELAY"; "Run"; "Color";
    "Error"; "error"; "fatal"; "log"; "output"; "warn"; "sleep";
    "indent"; "dedent"; "string"; "re"; "LabelColor"; "KEYSYMS";
    "get_writer"; "Writer"; "TTY_Writer"; "ClipboardWriter";
    "StdoutWriter"; "KeyboardWriter" ].

(** Evaluating a global name: a name bound neither in the module nor
    among the builtins raises [NameError].  The only name looked up this
    way below, [get_settings], is not a builtin. *)
Definition global (names : list string) (x : string) : M unit :=
  if str_in x names then ret tt else raise (NameError x).

(** *** Writer selection *)

Inductive writer :=
| KeyboardWriter
| ClipboardWriter
| StdoutWriter
| TTY_Writer.

Definition get_writer (display clipboard stdout : bool) : writer :=
  if negb display then KeyboardWriter
  else if clipboard then ClipboardWriter
  else if stdout then StdoutWriter
  else TTY_Writer.

(** [dedent(str(account.get_field(name, key))).strip()] inside
    [try: ... except Error as err: err.terminate()]. *)
Definition fetch_text (env : Env) (a : Account) (name : string) (k : key)
  : M (field_value * string) :=
  match get_field a name k with
  | Value v => ret (v, strip (dedent env (str_of v)))
  | Failed err => halt (Terminate err)
  end.

(** *** TTY_Writer.display_field *)

Module TTY_Writer.

Definition display_field (env : Env) (a : Account) (field : string)
    (ctrl_c : bool) : M unit :=
  let (name, k) := split_name a (Some field) in
  let secret := is_secret a name k in
  let! (value, tvalue) := fetch_text env a name k in
  let! (sep, tvalue) :=
    (if char_in chr_nl tvalue then
       if secret then
         exec emit (Warn "secret contains newlines, will not be fully concealed." k)
         then ret (" ", tvalue)
       else
         ret (nl, strip_chars nl (indent env (dedent env tvalue) (indent_setting env)))
     else ret (" ", tvalue)) in
  let label := combine_name a name k in
  exec emit (Log ["Writing to TTY:"; label]) then
  let label := upper env label in
  let label :=
    match get_name value with
    | Some alt_name =>
        if String.eqb alt_name "" then label
        else label +:+ " (" +:+ alt_name +:+ ")"
    | None => label
    end in
  let text := LabelColor env (label +:+ ":") +:+ sep +:+ tvalue in
  if secret then
    catch
      (exec emit (CursorWrite (text +:+ " ")) then
       exec time_sleep (PNum (Seconds (display_time env))) ctrl_c then
       emit CursorClear)
      (fun e => match e with
                | KeyboardInterrupt => Some (emit CursorClear)
                | _ => None
                end)
  else emit (Output text).

End TTY_Writer.

(** *** ClipboardWriter.display_field *)

(** [range(n, -1, -1)]. *)
Definition range_down (n : nat) : list nat := rev (seq 0 (S n)).

(** The count-down loop; [ctrl_c = Some i] means the user interrupts
    the [i]-th call of [sleep] (counted from 0). *)
Fixpoint countdown (ts : list nat) (ctrl_c : option nat) : M unit :=
  match ts with
  | [] => ret tt
  | t :: ts' =>
      exec emit (CursorWrite (str_of_nat t)) then
      exec time_sleep (PNum (Seconds 1))
           (match ctrl_c with Some 0 => true | _ => false end) then
      exec emit CursorClear then
      countdown ts' (match ctrl_c with Some (S i) => Some i | _ => None end)
  end.

Module ClipboardWriter.

(** [names] is the module namespace the body is evaluated in; the
    method of the source is [ClipboardWriter.display_field module_names]. *)
Definition display_field (names : list string) (env : Env)
    (a : Account) (field : string) (ctrl_c : option nat) : M unit :=
  let (name, k) := split_name a (Some field) in
  let secret := is_secret a name k in
  let! (_, value) := fetch_text env a name k in
  exec emit (Log ["Writing to clipboard."]) then
  exec global names "get_settings" then
  exec emit (Run [xsel_executable env; "-b"; "-i"] (Some value)) then
  if secret then
    (* produce count down *)
    exec catch (countdown (range_down (display_time env)) ctrl_c)
               (fun e => match e with
                         | KeyboardInterrupt => Some (emit CursorClear)
                         | _ => None
                         end) then
    (* clear the clipboard *)
    exec global names "get_settings" then
    emit (Run [xsel_executable env; "-b"; "-c"] None)
  else ret tt.

End ClipboardWriter.

(** *** StdoutWriter.display_field *)

Module StdoutWriter.

Definition display_field (env : Env) (a : Account) (field : string)
  : M unit :=
  match get_value a field with
  | Value v => emit (Print (strip (dedent env (str_of v))))
  | Failed err => halt (Terminate err)
  end.

End StdoutWriter.

(** *** KeyboardWriter.run_script *)

Definition run_xdotool (env : Env) (args : list string) : M unit :=
  emit (Run (xdotool_executable env :: args) None).

(** [keysym] after the [if char in string.ascii_letters] statement. *)
Definition keysym_of (char : ascii) : option string :=
  if ascii_letter char then Some (String char EmptyString)
  else dict_get KEYSYMS char.

(** [not keysym]: [None] and the empty string are false. *)
Definition usable (keysym : option string) : option string :=
  match keysym with
  | Some (String c k) => Some (String c k)
  | _ => None
  end.

(** The [for char in text] loop of [autotype]. *)
Fixpoint autotype_loop (text : list ascii) (keysyms : list string)
  : M (list string) :=
  match text with
  | [] => ret keysyms
  | char :: text' =>
      match usable (keysym_of char) with
      | None =>
          exec emit (Err "cannot map to keysym, unknown"
                         (Some (String char EmptyString))) then
          autotype_loop text' keysyms
      | Some keysym => autotype_loop text' (keysyms ++ [keysym])
      end
  end.

Definition autotype (env : Env) (text : string) : M unit :=
  let! keysyms := autotype_loop (chars text) [] in
  run_xdotool env (split_ws "key --clearmodifiers" ++ keysyms).

(** The longest run of [\w] characters at the head of [l], and the rest. *)
Fixpoint span_word (l : list ascii) : list ascii * list ascii :=
  match l with
  | c :: t =>
      if word_char c then let (w, r) := span_word t in (c :: w, r)
      else ([], l)
  | [] => ([], [])
  end.

(** The text [{\w+}] matches at the head of [l], if it matches there. *)
Definition match_command (l : list ascii) : option (list ascii) :=
  match l with
  | c :: t =>
      if Ascii.eqb c "{" then
        match span_word t with
        | ((_ :: _) as w, d :: _) =>
            if Ascii.eqb d "}" then Some (c :: w ++ [d]) else None
        | _ => None
        end
      else None
  | [] => None
  end.

(** [regex.split(script)] for [regex = re.compile(r'({\w+})')]: the
    text between successive leftmost matches, with the matched text
    itself (the group) in between.  [skip] counts the characters of the
    current match still to be passed over; [cur] is the pending piece,
    reversed. *)
Fixpoint regex_split_aux (l : list ascii) (skip : nat) (cur : list ascii)
  : list string :=
  match l with
  | [] => [str (rev cur)]
  | c :: t =>
      match skip with
      | S skip' => regex_split_aux t skip' cur
      | O =>
          match match_command l with
          | Some m =>
              str (rev cur) :: str m :: regex_split_aux t (length m - 1) []
          | None => regex_split_aux t 0 (c :: cur)
          end
      end
  end.

Definition regex_split (script : string) : list string :=
  regex_split_aux (chars script) 0 [].

(** The two lists the loop builds: keystrokes and log transcript. *)
Record buffers := { out : list string; scrubbed : list string }.

(** The [elif cmd.startswith('sleep ')] block; [cmd] is [cmd.split()].
    [sleep] is [time.sleep] and [cmd[1]] a [str]. *)
Definition sleep_command (env : Env) (b : buffers) (cmd : list string)
    (term : string) : M buffers :=
  catch
    (exec assert (String.eqb (nth 0 cmd "") "sleep") then
     exec assert (Nat.eqb (length cmd) 2) then
     let! out' :=
       (match out b with
        | _ :: _ => exec autotype env (join (out b)) then ret []
        | [] => ret (out b)
        end) in
     exec time_sleep (PStr (nth 1 cmd "")) false then
     ret {| out := out';
            scrubbed := scrubbed b ++ ["<sleep " +:+ nth 1 cmd "" +:+ ">"] |})
    (fun e => match e with
              | AssertionError | TypeError =>
                  Some (halt (Fatal "syntax error in keyboard script." term))
              | _ => None
              end).

(** The [else] block of the command chain: a field reference. *)
Definition field_command (env : Env) (a : Account) (b : buffers)
    (cmd : string) : M buffers :=
  let (name, k) := split_name a (Some cmd) in
  match get_field a name k with
  | Value v =>
      let value := strip (dedent env (str_of v)) in
      ret {| out := out b ++ [value];
             scrubbed := scrubbed b ++
               [if is_secret a name k then "<" +:+ cmd +:+ ">" else value] |}
  | Failed err => halt (Terminate err)
  end.

(** The body of the [for term in regex.split(script)] loop. *)
Definition run_term (env : Env) (a : Account) (b : buffers) (term : string)
  : M buffers :=
  if bracketed "{" "}" term then
    (* we have found a command *)
    let cmd := lower (slice_1_m1 term) in
    if String.eqb cmd "tab" then
      ret {| out := out b ++ [tab]; scrubbed := scrubbed b ++ [tab] |}
    else if String.eqb cmd "return" then
      ret {| out := out b ++ [nl]; scrubbed := scrubbed b ++ [nl] |}
    else if startswith cmd "sleep " then
      sleep_command env b (split_ws cmd) term
    else
      field_command env a b cmd
  else
    ret {| out := out b ++ [term]; scrubbed := scrubbed b |}.

Fixpoint run_terms (env : Env) (a : Account) (b : buffers)
    (terms : list string) : M buffers :=
  match terms with
  | [] => ret b
  | term :: terms' =>
      let! b' := run_term env a b term in
      run_terms env a b' terms'
  end.

(** ['Autotyping "%s".' % transcript]. *)
Definition autotyping (transcript : string) : string :=
  "Autotyping " +:+ dquote +:+ transcript +:+ dquote +:+ ".".

(** The script built when [script is True]. *)
Definition default_script (a : Account) : string :=
  (* this bit of trickery gets the name of the default field *)
  let (name, k) := split_name a None in
  let name := combine_name a name k in
  "{" +:+ name +:+ "}{return}".

Module KeyboardWriter.

(** [script = None] is the call with [script is True]. *)
Definition run_script (env : Env) (a : Account) (script : option string)
  : M unit :=
  (* Create the default script if a script was not given *)
  let script :=
    match script with
    | Some s => s
    | None => default_script a
    end in
  (* Run the script *)
  exec time_sleep (PNum INITIAL_AUTOTYPE_DELAY) false then
  let! b := run_terms env a {| out := []; scrubbed := [] |}
                      (regex_split script) in
  exec emit (Log [autotyping (join (scrubbed b))]) then
  autotype env (join (out b)).

End KeyboardWriter.

(** *** Vocabulary for the statements below *)

(** The key names of the characters of [text] that have one. *)
Definition typed_keys (text : list ascii) : list string :=
  flat_map (fun c => match keysym_of c with Some k => [k] | None => [] end)
           text.

(** The error reports for the characters of [text] that have none. *)
Definition unmapped_reports (text : list ascii) : list event :=
  flat_map (fun c => match keysym_of c with
                     | Some _ => []
                     | None => [Err "cannot map to keysym, unknown"
                                    (Some (String c EmptyString))]
                     end) text.

(** The [xdotool] call that types [text]. *)
Definition keystrokes (env : Env) (text : string) : list string :=
  [xdotool_executable env; "key"; "--clearmodifiers"]
  ++ typed_keys (chars text).

Definition warned (t : list event) : list (string * option string) :=
  flat_map (fun e => match e with Warn m c => [(m, c)] | _ => [] end) t.




End Writer.

(* ===================================================================== *)
(** ** command.py: the add and edit commands *)
(* ===================================================================== *)

Module Command.
Import Py Eff.

(** The files on disk: path to content.  Encryption is transparent:
    a file holds the text that [read] returns and [save] was given. *)
Abbreviation files := (gmap string string).

(** The parts of other modules the two commands call. *)
Record Ext := {
  (* PythonFile.run on a file with this text: [None] when it loads,
     [Some msg] when it raises PasswordError *)
  parse : string -> option string;
  (* '%r' % ObscuredSecret.hide(text) *)
  hide_repr : string -> string
}.

(** One pass through the editor: what the user leaves in the edited
    file ([None]: the file is gone), and the reply to a retry prompt
    should one follow. *)
Record session := {
  edited : option string;
  answer : string
}.

Inductive reason :=
| Msg (text : string)
| OsError (path : string).     (* os_error(e) for a missing file *)

Inductive ending :=
| Returned
| PasswordError (why : reason)
| InEditor.                    (* sessions used up: the editor is open *)

Record final := {
  disk : files;
  shown : list event;
  ended : ending
}.

(** Modelled from the spec: the backup of [gpg.py], absent from the
    sources, holds a copy of the file under the path tagged with the
    suffix. *)
Definition backup_path (path suffix : string) : string := path +:+ suffix.

(** Modelled from the spec: [PythonFile.backup] of [gpg.py] duplicates
    the on-disk bytes of the file; [None] is the OSError of a missing
    file. *)
Definition backup (fs : files) (path suffix : string) : option files :=
  match fs !! path with
  | Some bytes => Some (<[backup_path path suffix := bytes]> fs)
  | None => None
  end.

(** Modelled from the spec: [PythonFile.restore] of [gpg.py] copies the
    backup back over the original, and does nothing (without error)
    when there is no backup. *)
Definition restore (fs : files) (path suffix : string) : files :=
  match fs !! backup_path path suffix with
  | Some bytes => <[path := bytes]> fs
  | None => fs
  end.

(** [GenericEditor.open(path)]: returns when the user leaves the editor. *)
Definition editor_open (fs : files) (path : string) (s : session) : files :=
  match edited s with
  | Some text => <[path := text]> fs
  | None => delete path fs
  end.

Definition accepts (response : string) : bool :=
  str_in (lower response) ["y"; "yes"].

(** *** Edit.run *)

(** The [while True] loop with its two handlers; [path] is
    [accounts_file.path]. *)
Fixpoint edit_loop (ext : Ext) (path : string) (fs : files)
    (evs : list event) (sessions : list session) : final :=
  match sessions with
  | [] => {| disk := fs; shown := evs; ended := InEditor |}
  | s :: sessions' =>
      let fs := editor_open fs path s in
      let evs := evs ++ [Editor path] in
      (* check the changes to see if there are any issues *)
      match fs !! path with
      | None =>
          (* except OSError *)
          {| disk := restore fs path ".saved";
             shown := evs ++ [Restore path];
             ended := PasswordError (OsError path) |}
      | Some text =>
          match parse ext text with
          | None => {| disk := fs; shown := evs; ended := Returned |}
          | Some e =>
              let evs := evs ++ [Err e None; Query "Try again? "] in
              if accepts (answer s) then edit_loop ext path fs evs sessions'
              else
                (* except PasswordError *)
                {| disk := restore fs path ".saved";
                   shown := evs ++ [Restore path];
                   ended := PasswordError
                              (Msg "Giving up, restoring original version.") |}
          end
      end
  end.

Module Edit.

(** [path] is the file of the account [generator.get_account] found. *)
Definition run (ext : Ext) (fs : files) (path : string)
    (sessions : list session) : final :=
  (* determine the account file and back it up *)
  match backup fs path ".saved" with
  | None =>
      {| disk := fs; shown := []; ended := PasswordError (OsError path) |}
  | Some fs =>
      (* allow the user to edit, and then check and make sure it is valid *)
      edit_loop ext path fs [Backup path] sessions
  end.

End Edit.

(** *** Add.run *)

(** The text matched by [(.*?)] when [<<(.*?)>>] matches at [<<] and
    [l] is what follows these two characters. *)
Fixpoint lazy_group (l : list ascii) : option (list ascii) :=
  match l with
  | [] => None
  | c :: t =>
      match l with
      | ">"%char :: ">"%char :: _ => Some []
      | _ =>
          if Ascii.eqb c chr_nl then None
          else option_map (cons c) (lazy_group t)
      end
  end.

Definition match_hidden (l : list ascii) : option (list ascii) :=
  match l with
  | "<"%char :: "<"%char :: t => lazy_group t
  | _ => None
  end.

(** [re.sub("<<(.*?)>>", hide, new)]; [skip] counts the characters of
    the current match still to be passed over. *)
Fixpoint sub_hidden (ext : Ext) (l : list ascii) (skip : nat) : list ascii :=
  match l with
  | [] => []
  | c :: t =>
      match skip with
      | S skip' => sub_hidden ext t skip'
      | O =>
          match match_hidden l with
          | Some g =>
              chars ("Hidden(" +:+ hide_repr ext (str g) +:+ ")")
              ++ sub_hidden ext t (length g + 3)
          | None => c :: sub_hidden ext t 0
          end
      end
  end.

(** The candidate text the loop derives from what was read back. *)
Definition prepare (ext : Ext) (new : string) : string :=
  (* remove instructions *)
  let new :=
    strip_chars nl
      (join_with nl
         (filter (fun l => negb (startswith l "# Avendesora:"))
                 (split_on chr_nl new))) +:+ nl in
  (* hide the values that should be hidden *)
  str (sub_hidden ext (chars new) 0).

(** The handler [except (PasswordError, OSError) as e]. *)
Definition abandon (fs : files) (evs : list event) (path tmpfilename : string)
    (e : string) : final :=
  {| disk := restore fs path ".saved";
     shown := evs ++
       [ Restore path; Err e None;
         Codicil [ ""; "What you entered can be found in " +:+ tmpfilename +:+ ".";
                   "Delete it when done with it." ] ];
     ended := Returned |}.

Fixpoint add_loop (ext : Ext) (path template tmpfilename : string)
    (orig_accounts_code : string) (fs : files) (evs : list event)
    (sessions : list session) : final :=
  match sessions with
  | [] => {| disk := fs; shown := evs; ended := InEditor |}
  | s :: sessions' =>
      let fs := editor_open fs tmpfilename s in
      let evs := evs ++ [Editor tmpfilename] in
      (* read the tmp file and determine if it has changed *)
      match fs !! tmpfilename with
      | None => abandon fs evs path tmpfilename tmpfilename
      | Some new =>
          if String.eqb (strip new) "" || String.eqb new template then
            {| disk := fs;
               shown := evs ++ [Output "Unchanged, and so ignored."];
               ended := Returned |}
          else
            let new := prepare ext new in
            (* add new account to the contents *)
            let accounts := orig_accounts_code +:+ nl +:+ nl +:+ nl +:+ new in
            (* save the new version *)
            let fs := <[path := accounts]> fs in
            let evs := evs ++ [Save path] in
            (* check the changes to see if there are any issues *)
            match parse ext accounts with
            | None =>
                (* delete the temp file *)
                {| disk := delete tmpfilename fs;
                   shown := evs ++ [Remove tmpfilename];
                   ended := Returned |}
            | Some e =>
                let evs := evs ++ [Err e None; Query "Try again?"] in
                if accepts (answer s) then
                  add_loop ext path template tmpfilename orig_accounts_code
                           fs evs sessions'
                else
                  abandon fs evs path tmpfilename
                          "Giving up, restoring original file."
            end
      end
  end.

Module Add.

(** [path] is the accounts file chosen from the settings, [template]
    the text [dedent(templates[template_name]).strip() + '\n'], and
    [tmpfilename] the name [mktemp] returns. *)
Definition run (ext : Ext) (fs : files) (path template tmpfilename : string)
    (sessions : list session) : final :=
  (* get original contents of accounts file *)
  match fs !! path with
  | None =>
      {| disk := fs; shown := []; ended := PasswordError (OsError path) |}
  | Some code =>
      match parse ext code with
      | Some e => {| disk := fs; shown := []; ended := PasswordError (Msg e) |}
      | None =>
          let orig_accounts_code := strip_chars nl code in
          (* backup the original file *)
          match backup fs path ".saved" with
          | None =>
              {| disk := fs; shown := [];
                 ended := PasswordError (OsError path) |}
          | Some fs =>
              (* save the template into temp file *)
              let fs := <[tmpfilename := template]> fs in
              (* open template in the editor *)
              add_loop ext path template tmpfilename orig_accounts_code fs
                       [Backup path; Save tmpfilename] sessions
          end
      end
  end.

End Add.

(** *** Vocabulary for the statements below *)

Definition rejected (ext : Ext) (text : string) : bool :=
  match parse ext text with Some _ => true | None => false end.

(** An editor session of [edit] that leaves text which does not load. *)
Definition edit_fails (ext : Ext) (s : session) : bool :=
  match edited s with
  | Some text => rejected ext text
  | None => false
  end.

(** The no-op test of [add]: [not new.strip() or new == template]. *)
Definition unchanged (template new : string) : bool :=
  String.eqb (strip new) "" || String.eqb new template.

(** An editor session of [add] that leaves changed text from which the
    new accounts file, built on [code], does not load. *)
Definition add_fails (ext : Ext) (code template : string) (s : session)
  : bool :=
  match edited s with
  | Some new =>
      negb (unchanged template new)
      && rejected ext (strip_chars nl code +:+ nl +:+ nl +:+ nl
                       +:+ prepare ext new)
  | None => false
  end.

(** The user's reply to the retry prompt. *)
Definition retries (s : session) : bool := accepts (answer s).
Definition declines (s : session) : bool := negb (accepts (answer s)).

(** Some [output] call was made. *)
Definition reports (r : final) : Prop :=
  exists text, In (Output text) (shown r).

End Command.

(* ===================================================================== *)
(** ** Sample data for concrete runs *)
(* ===================================================================== *)

Module Sample.
Import Py Eff Writer Command.

Definition upper_ascii (s : string) : string :=
  str (map (fun c => if between 97 122 (code c)
                     then ascii_of_nat (code c - 32) else c) (chars s)).

(** [textwrap.indent] on text whose lines end in a line feed. *)
Definition indent_lines (text pre : string) : string :=
  join_with nl
    (map (fun l => if String.eqb (strip l) "" then l else pre +:+ l)
         (split_on chr_nl text)).

(** A configuration for text without indentation and ASCII labels:
    there [textwrap.dedent] returns its argument and [str.upper] is
    [upper_ascii]. *)
Definition flat_env : Env := {|
  dedent := fun text => text;
  indent := indent_lines;
  upper := upper_ascii;
  LabelColor := fun label => label;
  display_time := 2;
  indent_setting := "    ";
  xdotool_executable := "/usr/bin/xdotool";
  xsel_executable := "/usr/bin/xsel"
|}.

(** An account with the plain field [username], value [foo], and the
    secret field [passcode], value [pw]. *)
Definition login (pw : string) : Account := {|
  split_name := fun o =>
    match o with Some n => (n, None) | None => ("passcode", None) end;
  combine_name := fun n _ => n;
  is_secret := fun n _ => String.eqb n "passcode";
  get_field := fun n _ =>
    if String.eqb n "username"
    then Value {| str_of := "foo"; get_name := None |}
    else if String.eqb n "passcode"
    then Value {| str_of := pw; get_name := None |}
    else Failed ("not found: " +:+ n);
  get_value := fun n =>
    if String.eqb n "passcode"
    then Value {| str_of := pw; get_name := None |}
    else Failed ("not found: " +:+ n)
|}.

Definition two_lines : string := "a" +:+ nl +:+ "b".

(** The bell character: neither a letter nor a key of [KEYSYMS]. *)
Definition bell : ascii := ascii_of_nat 7.

(** An accounts file loads unless it contains an exclamation mark. *)
Definition strict : Ext := {|
  parse := fun text =>
    if char_in "!" text then Some "invalid syntax" else None;
  hide_repr := fun text => "'" +:+ text +:+ "'"
|}.

Definition accounts_path : string := "accounts.gpg".
Definition tmp_path : string := "/tmp/tmpab12_avendesora.gpg".
Definition original : string := "a = 1" +:+ nl.
Definition template : string := "class _NAME_(Account):" +:+ nl.

Definition on_disk : gmap string string := {[ accounts_path := original ]}.

End Sample.

(* ===================================================================== *)
(** ** Vocabulary for further statements about the writers *)
(* ===================================================================== *)

Module WriterTerms.
Import Py Eff Writer.

(** A printable ASCII character, a line feed or a tab. *)
Definition typeable (c : ascii) : bool :=
  between 32 126 (code c) || Ascii.eqb c chr_nl || Ascii.eqb c chr_tab.

(** The 256 characters. *)
Definition all_chars : list ascii := map ascii_of_nat (seq 0 256).

(** [s] is an opening brace, one or more [\w] characters and a closing
    brace, and nothing else. *)
Definition command_text (s : string) : bool :=
  match chars s with
  | c :: t =>
      Ascii.eqb c "{" && Ascii.eqb (List.last t "x"%char) "}"
      && Nat.leb 1 (length (removelast t))
      && forallb word_char (removelast t)
  | [] => false
  end.

(** A piece of text, then any number of times a command and a piece of
    text. *)
Fixpoint alternates (pieces : list string) : bool :=
  match pieces with
  | [] => false
  | _ :: rest =>
      match rest with
      | [] => true
      | c :: rest' => command_text c && alternates rest'
      end
  end.

(** One round of the count-down for the number [t]. *)
Definition tick (t : nat) : list event :=
  [CursorWrite (str_of_nat t); Sleep (Seconds 1); CursorClear].

End WriterTerms.

(* ===================================================================== *)
(** ** Vocabulary for further statements about add and edit *)
(* ===================================================================== *)

Module CommandTerms.
Import Py Eff Command.

(** The accounts file [add] saves for the text [new] read back from the
    temporary file, on top of the original text [code]. *)
Definition candidate (ext : Ext) (code new : string) : string :=
  strip_chars nl code +:+ nl +:+ nl +:+ nl +:+ prepare ext new.

(** An editor session of [edit] that leaves text which loads. *)
Definition edit_passes (ext : Ext) (s : session) : bool :=
  match edited s with
  | Some text => negb (rejected ext text)
  | None => false
  end.

(** An editor session of [add] that leaves changed text from which the
    new accounts file loads. *)
Definition add_passes (ext : Ext) (code template : string) (s : session)
  : bool :=
  match edited s with
  | Some new =>
      negb (unchanged template new) && negb (rejected ext (candidate ext code new))
  | None => false
  end.


(** What a failed session of [edit] shows: editor, error, retry prompt. *)
Definition edit_round (ext : Ext) (path : string) (s : session) : list event :=
  match edited s with
  | Some text =>
      match parse ext text with
      | Some e => [Editor path; Err e None; Query "Try again? "]
      | None => [Editor path]
      end
  | None => [Editor path]
  end.

(** What a failed session of [add] shows: editor, save, error, prompt. *)
Definition add_round (ext : Ext) (path tmpfilename code : string) (s : session)
  : list event :=
  match edited s with
  | Some new =>
      match parse ext (candidate ext code new) with
      | Some e =>
          [Editor tmpfilename; Save path; Err e None; Query "Try again?"]
      | None => [Editor tmpfilename; Save path]
      end
  | None => [Editor tmpfilename]
  end.

(** The run did nothing, or began by taking the backup. *)
Definition backup_comes_first (fs : files) (path : string) (r : final) : Prop :=
  (shown r = [] /\ disk r = fs /\ exists why, ended r = PasswordError why)
  \/ exists rest, shown r = Backup path :: rest.

End CommandTerms.

(* ===================================================================== *)
(** ** command.py: the command table *)
(* ===================================================================== *)

Module Dispatch.
Import Py.

(** The subclasses of [Command], in the order the module defines them,
    which is the order of [cls.__subclasses__()]. *)
Inductive command :=
| Add | Archive | Browse | Changed | Conceal | Edit | Find | Help
| Identity | Initialize | Log | LoginCredentials | New | PhoneticAlphabet
| Reveal | Search | Value | Values | Version.

Definition NAMES (c : command) : list string :=
  match c with
  | Add => ["add"; "a"]
  | Archive => ["archive"; "A"]
  | Browse => ["browse"; "b"]
  | Changed => ["changed"; "C"]
  | Conceal => ["conceal"; "c"]
  | Edit => ["edit"; "e"]
  | Find => ["find"; "f"]
  | Help => ["help"; "h"]
  | Identity => ["identity"; "ident"; "i"]
  | Initialize => ["initialize"; "init"; "I"]
  | Log => ["log"]
  | LoginCredentials => ["credentials"; "login"; "l"]
  | New => ["new"; "N"]
  | PhoneticAlphabet => ["phonetic"; "alphabet"; "p"]
  | Reveal => ["reveal"; "r"]
  | Search => ["search"; "s"]
  | Value => ["value"; "val"; "v"]
  | Values => ["values"; "vals"; "V"]
  | Version => ["version"]
  end.

(** [Command.commands()]. *)
Definition commands : list command :=
  [ Add; Archive; Browse; Changed; Conceal; Edit; Find; Help; Identity;
    Initialize; Log; LoginCredentials; New; PhoneticAlphabet; Reveal;
    Search; Value; Values; Version ].

(** [Command.find(name)]: the first command that lists [name]; [None]
    when the loop ends without a [return]. *)
Definition find (name : string) : option command :=
  List.find (fun c => str_in name (NAMES c)) commands.

(** [Command.get_name()]. *)
Definition get_name (c : command) : string := hd "" (NAMES c).

(** What [Command.execute] does in the end: it calls
    [command.run(name, args)], or reports an unknown command. *)
Inductive dispatched :=
| Runs (c : command) (name : string) (args : list string)
| UnknownCommand (culprit : string).

(** [Command.execute(name, args)]; [args = None] is Python's [None]. *)
Definition execute (name : string) (args : option (list string)) : dispatched :=
  let args := match args with None => [] | Some args => args end in
  match find name with
  | Some c => Runs c name args
  | None =>
      (* no recognizable command was specified *)
      let args := name :: args in
      let name := if Nat.ltb 1 (length args) then "value" else "credentials" in
      match find name with
      | Some c => Runs c name args
      | None => UnknownCommand name
      end
  end.

End Dispatch.

(* ===================================================================== *)
(** ** command.py: the phonetic alphabet *)
(* ===================================================================== *)

Module Phonetic.
Import Py Eff.

(** The text between the triple quotes, with its line breaks. *)
Definition words_text : string :=
  nl +:+
  "            Alfa Bravo Charlie Delta Echo Foxtrot Golf Hotel India Juliett Kilo"
  +:+ nl +:+
  "            Lima Mike November Oscar Papa Quebec Romeo Sierra Tango Uniform"
  +:+ nl +:+
  "            Victor Whiskey X-ray Yankee Zulu"
  +:+ nl +:+ "        ".

Definition words : list string := split_ws words_text.

(** [w[0].lower()]. *)
Definition initial (w : string) : string :=
  match w with
  | String c _ => lower (String c EmptyString)
  | EmptyString => ""
  end.

(** The dictionary built by the comprehension and then updated with the
    digits: a later entry for a key replaces an earlier one. *)
Definition mapping : gmap string string :=
  fold_left (fun m kv => <[fst kv := snd kv]> m)
    [ ("0", "Zero"); ("1", "One"); ("2", "Two"); ("3", "Three");
      ("4", "Four"); ("5", "Five"); ("6", "Six"); ("7", "Seven");
      ("8", "Eight"); ("9", "Nine") ]
    (fold_left (fun m w => <[initial w := w]> m) words ∅).

(** [mapping.get(c, c)]. *)
Definition spell (c : ascii) : string :=
  default (String c EmptyString) (mapping !! String c EmptyString).

(** [PhoneticAlphabet.run]; [arg] is [cmdline['<text>']] and [columns]
    the function of [inform]. *)
Definition run (columns : list string -> string) (arg : option string)
  : list event :=
  match arg with
  | Some (String c rest) =>
      let converted := map spell (chars (lower (String c rest))) in
      [Output (lower (join_with " " converted))]
  | _ =>
      [Output "Phonetic alphabet:"; Output (columns words)]
  end.




End Phonetic.

(* ===================================================================== *)
(** ** generator.py *)
(* ===================================================================== *)

Module Generator.
Import Py.

(** [string.ascii_letters], [string.digits], [string.punctuation]. *)
Definition ascii_letters : string :=
  "abcdefghijklmnopqrstuvwxyzABCDEFGHIJKLMNOPQRSTUVWXYZ".
Definition digits : string := "0123456789".
Definition punctuation : string :=
  "!" +:+ dquote +:+ "#$%&'()*+,-./:;<=>?@[\]^_`{|}~".

(** [s.replace(old, new)] for one-character strings. *)
Definition replace_char (old new : ascii) (s : string) : string :=
  str (map (fun c => if Ascii.eqb c old then new else c) (chars s)).

(** Create alphabet from letters, digits, and punctuation, but replace
    double quote with a space. *)
Definition alphabet : string :=
  replace_char (ascii_of_nat 34) " "
    (ascii_letters +:+ digits +:+ punctuation).

(** [rand.choice(seq)] when the generator draws the number [r]: the
    element at an index below [len(seq)]. *)
Definition choice (r : nat) (seq : string) : ascii :=
  nth (r mod String.length seq) (chars seq) " "%char.

(** [generate_random_string(length)]; [rand i] is what the system's
    random source yields for the [i]-th character. *)
Definition generate_random_string (rand : nat -> nat) (length : nat) : string :=
  fold_left (fun password i => password +:+ String (choice (rand i) alphabet) "")
            (seq 0 length) "".

(** [range(0, n, l)] for a positive step [l]. *)
Definition range_step (n l : nat) : list nat :=
  map (fun k => k * l) (seq 0 ((n + l - 1) / l)).

(** [[s[i:i+l] for i in range(0, len(s), l)]]. *)
Definition slices (s : string) (l : nat) : list string :=
  map (fun i => str (firstn l (skipn i (chars s))))
      (range_step (String.length s) l).

(** [split(s, l)] inside [PasswordGenerator.initialize]: break a long
    string into a series of adjacent shorter strings.  [None] is the
    ValueError of [range] with step 0. *)
Definition split (s : string) (l : nat) : option string :=
  if Nat.ltb (String.length s) l then Some (dquote +:+ s +:+ dquote)
  else if Nat.eqb l 0 then None
  else
    let chunks :=
      map (fun c => "    " +:+ dquote +:+ c +:+ dquote) (slices s l) in
    Some (nl +:+ join_with nl chunks +:+ nl).



End Generator.

(* ===================================================================== *)
(** ** writer.py: calling get_writer *)
(* ===================================================================== *)

Module Calls.
Import Py Eff Writer.

(** The parameters of [def get_writer(display=True, clipboard=False,
    stdout=False)] with their defaults. *)
Definition get_writer_params : list (string * bool) :=
  [("display", true); ("clipboard", false); ("stdout", false)].

(** [dict.get(k)] on a list of keyword arguments. *)
Fixpoint keyword (kw : list (string * bool)) (k : string) : option bool :=
  match kw with
  | [] => None
  | (k', v) :: kw' => if String.eqb k' k then Some v else keyword kw' k
  end.

(** The values the parameters [ps] get after the positional arguments
    [pos] have filled the first of them: a keyword argument or else the
    default. *)
Definition fill (ps : list (string * bool)) (kw : list (string * bool))
  : list bool :=
  map (fun p => match keyword kw (fst p) with
                | Some v => v
                | None => snd p
                end) ps.

(** Python's binding of a call to parameters that all have defaults:
    [None] is the TypeError for too many positional arguments, for a
    keyword that names no parameter, or for a parameter given twice. *)
Definition bind_call (ps : list (string * bool)) (pos : list bool)
    (kw : list (string * bool)) : option (list bool) :=
  if Nat.leb (length pos) (length ps)
     && forallb (fun k => str_in k (map fst (skipn (length pos) ps)))
                (map fst kw)
     && Nat.eqb (length (nodup string_dec (map fst kw))) (length kw)
  then Some (pos ++ fill (skipn (length pos) ps) kw)
  else None.

(** A call of [get_writer] with the positional arguments [pos] and the
    keyword arguments [kw]. *)
Definition get_writer_call (pos : list bool) (kw : list (string * bool))
  : M writer :=
  match bind_call get_writer_params pos kw with
  | Some [display; clipboard; stdout] =>
      ret (get_writer display clipboard stdout)
  | _ => raise TypeError
  end.

End Calls.

(* ===================================================================== *)
(** ** The string primitives on small inputs *)
(* ===================================================================== *)

Module PyFacts.
Import Py.

Example split_ws_runs : split_ws (" sleep   1.5" +:+ tab) = ["sleep"; "1.5"].
Proof. reflexivity. Qed.

Example split_on_keeps_empty : split_on "," "a,b,," = ["a"; "b"; ""; ""].
Proof. reflexivity. Qed.

Example strip_both_ends : strip ("  ab c " +:+ nl) = "ab c".
Proof. reflexivity. Qed.

Example strip_chars_only_given :
  strip_chars nl (nl +:+ " a" +:+ nl +:+ "b " +:+ nl) = " a" +:+ nl +:+ "b ".
Proof. reflexivity. Qed.

Example lower_ascii : lower "Sleep ABC_9" = "sleep abc_9".
Proof. reflexivity. Qed.

Example startswith_sleep :
  startswith "sleep 1" "sleep " = true /\ startswith "sleep" "sleep " = false.
Proof. split; reflexivity. Qed.

Example bracketed_terms :
  bracketed "{" "}" "{a}" = true /\ bracketed "{" "}" "{" = false
  /\ bracketed "{" "}" "" = false /\ bracketed "{" "}" "{a}b" = false.
Proof. repeat split; reflexivity. Qed.

Example slice_inner : slice_1_m1 "{Sleep 1}" = "Sleep 1" /\ slice_1_m1 "{" = "".
Proof. split; reflexivity. Qed.

Example str_of_nat_decimal : str_of_nat 0 = "0" /\ str_of_nat 60 = "60".
Proof. split; reflexivity. Qed.

Lemma str_chars (s : string) : str (chars s) = s.
Proof. apply string_of_list_ascii_of_string. Qed.

Lemma chars_str (l : list ascii) : chars (str l) = l.
Proof. apply list_ascii_of_string_of_list_ascii. Qed.

Lemma str_app (l1 l2 : list ascii) : str (l1 ++ l2) = str l1 +:+ str l2.
Proof.
  induction l1 as [| c l1 IH]; [reflexivity |].
  change (String c (str (l1 ++ l2)) = String c (str l1 +:+ str l2)).
  now rewrite IH.
Qed.

Lemma append_empty (s : string) : s +:+ "" = s.
Proof.
  induction s as [| c s IH]; [reflexivity |].
  change (String c (s +:+ "") = String c s). now rewrite IH.
Qed.

Lemma join_cons (x : string) (xs : list string) : join (x :: xs) = x +:+ join xs.
Proof.
  unfold join. destruct xs as [| y ys]; simpl; [| reflexivity].
  symmetry. apply append_empty.
Qed.

End PyFacts.

(* ===================================================================== *)
(** ** Facts about the writers *)
(* ===================================================================== *)

Module WriterFacts.
Import Py Eff Writer.

(** *** The tokenizer *)

Example regex_split_spec_script :
  regex_split "{username}: {passcode}{return}"
  = [""; "{username}"; ": "; "{passcode}"; ""; "{return}"; ""].
Proof. reflexivity. Qed.

Example regex_split_nested_braces :
  regex_split "{{a}}{}{b" = ["{"; "{a}"; "}{}{b"].
Proof. reflexivity. Qed.

Example regex_split_sleep_between_fields :
  regex_split "{username}{sleep 1}{passcode}"
  = [""; "{username}"; "{sleep 1}"; "{passcode}"; ""].
Proof. reflexivity. Qed.

Lemma span_word_app (l : list ascii) :
  fst (span_word l) ++ snd (span_word l) = l.
Proof.
  induction l as [| c l IH]; simpl; [reflexivity |].
  destruct (word_char c); [| reflexivity].
  destruct (span_word l) as [w r]. simpl in *. now rewrite IH.
Qed.

(** A match is a prefix of the text it is found in, and starts with the
    character at the head of that text. *)
Lemma match_command_prefix (c : ascii) (t m : list ascii) :
  match_command (c :: t) = Some m ->
  exists m' r, m = c :: m' /\ t = m' ++ r.
Proof.
  unfold match_command.
  destruct (Ascii.eqb c "{"); [| discriminate].
  pose proof (span_word_app t) as Hsp.
  destruct (span_word t) as [[| w0 w] [| d r]]; try discriminate.
  simpl in Hsp.
  destruct (Ascii.eqb_spec d "}") as [-> |]; [| discriminate].
  intros [= <-]. exists ((w0 :: w) ++ ["}"%char]), r.
  split; [reflexivity |]. rewrite <- Hsp. now rewrite <- app_assoc.
Qed.

Lemma regex_split_aux_join (l : list ascii) :
  forall skip cur,
    skip <= length l ->
    join (regex_split_aux l skip cur) = str (rev cur ++ skipn skip l).
Proof.
  induction l as [| c t IH]; intros skip cur Hs.
  - assert (skip = 0) as -> by (simpl in Hs; lia).
    simpl. now rewrite app_nil_r.
  - destruct skip as [| k]; cbn [regex_split_aux skipn].
    + destruct (match_command (c :: t)) as [m |] eqn:Hm.
      * destruct (match_command_prefix c t m Hm) as (m' & r & -> & ->).
        rewrite !PyFacts.join_cons, IH.
        -- cbn [length rev app]. replace (S (length m') - 1) with (length m') by lia.
           rewrite skipn_app, skipn_all, Nat.sub_diag. cbn [skipn app].
           rewrite (PyFacts.str_app (rev cur)).
           change (c :: m' ++ r) with ((c :: m') ++ r).
           now rewrite (PyFacts.str_app (c :: m')).
        -- cbn [length]. rewrite length_app. lia.
      * rewrite IH by lia. cbn [rev skipn]. now rewrite <- app_assoc.
    + simpl in Hs. apply IH. lia.
Qed.

(** Splitting loses no text: the pieces, joined, are the script. *)
Lemma regex_split_join (script : string) :
  join (regex_split script) = script.
Proof.
  unfold regex_split. rewrite regex_split_aux_join by lia.
  simpl. apply PyFacts.str_chars.
Qed.

Lemma logged_app (t1 t2 : list event) :
  logged (t1 ++ t2) = logged t1 ++ logged t2.
Proof. apply flat_map_app. Qed.

Lemma ran_app (t1 t2 : list event) : ran (t1 ++ t2) = ran t1 ++ ran t2.
Proof. apply flat_map_app. Qed.

Lemma warned_app (t1 t2 : list event) :
  warned (t1 ++ t2) = warned t1 ++ warned t2.
Proof. apply flat_map_app. Qed.



(** Every value of [KEYSYMS] and every letter is a non-empty string, so
    the truth test on [keysym] only rejects [None]. *)
Lemma usable_keysym_of (c : ascii) : usable (keysym_of c) = keysym_of c.
Proof.
  destruct c as [[] [] [] [] [] [] [] []]; reflexivity.
Qed.

Lemma typed_keys_app (l1 l2 : list ascii) :
  typed_keys (l1 ++ l2) = typed_keys l1 ++ typed_keys l2.
Proof. apply flat_map_app. Qed.

Lemma unmapped_reports_app (l1 l2 : list ascii) :
  unmapped_reports (l1 ++ l2) = unmapped_reports l1 ++ unmapped_reports l2.
Proof. apply flat_map_app. Qed.

(** The loop never stops early: it reports the characters it cannot map
    and returns the key names of the others, in order. *)
Lemma autotype_loop_spec (text : list ascii) :
  forall keysyms,
    autotype_loop text keysyms =
    (unmapped_reports text, inl (keysyms ++ typed_keys text)).
Proof.
  induction text as [| c text IH]; intros keysyms; simpl.
  - now rewrite app_nil_r.
  - rewrite usable_keysym_of.
    destruct (keysym_of c) as [k |] eqn:Hk.
    + rewrite IH. simpl. now rewrite <- app_assoc.
    + unfold bind, emit. rewrite IH. reflexivity.
Qed.

Lemma autotype_spec (env : Env) (text : string) :
  autotype env text =
  (unmapped_reports (chars text) ++ [Run (keystrokes env text) None], inl tt).
Proof.
  unfold autotype. rewrite autotype_loop_spec. reflexivity.
Qed.

Lemma unmapped_reports_not_logged (l : list ascii) :
  logged (unmapped_reports l) = [].
Proof.
  induction l as [| c l IH]; [reflexivity |].
  simpl. rewrite logged_app, IH. now destruct (keysym_of c).
Qed.

(** A recognised sleep command always ends the run: [time.sleep] is
    handed the text of its argument, which raises TypeError whatever
    the text is.  Pending keystrokes are typed first. *)
Lemma sleep_command_fatal (env : Env) (b : buffers) (cmd : list string)
    (term : string) :
  exists t,
    sleep_command env b cmd term
    = (t, inr (Fatal "syntax error in keyboard script." term))
    /\ logged t = []
    /\ (t = [] \/ (out b <> [] /\ t = trace (autotype env (join (out b))))).
Proof.
  unfold sleep_command.
  destruct (String.eqb (nth 0 cmd "") "sleep"); simpl.
  2: { exists []. auto. }
  destruct (Nat.eqb (length cmd) 2); simpl.
  2: { exists []. auto. }
  destruct (out b) as [| o os] eqn:Hout; simpl.
  - exists []. auto.
  - rewrite autotype_spec. simpl.
    eexists. split; [reflexivity |]. split.
    + rewrite !app_nil_r, logged_app. simpl.
      now rewrite unmapped_reports_not_logged.
    + right. split; [discriminate |]. now rewrite !app_nil_r.
Qed.

Lemma unmapped_reports_not_ran (l : list ascii) :
  ran (unmapped_reports l) = [].
Proof.
  induction l as [| c l IH]; [reflexivity |].
  simpl. rewrite ran_app, IH. now destruct (keysym_of c).
Qed.




(** *** The log does not depend on secret values *)


Lemma countdown_quiet (ts : list nat) :
  forall ctrl_c,
    logged (trace (countdown ts ctrl_c)) = []
    /\ warned (trace (countdown ts ctrl_c)) = []
    /\ ran (trace (countdown ts ctrl_c)) = []
    /\ (result (countdown ts ctrl_c) = inl tt
        \/ result (countdown ts ctrl_c) = inr (Uncaught KeyboardInterrupt)).
Proof.
  induction ts as [| t ts IH]; intros ctrl_c; simpl.
  - auto.
  - destruct ctrl_c as [[| i] |]; simpl; auto.
    + specialize (IH (Some i)).
      destruct (countdown ts (Some i)) as [tr r]; simpl in *. exact IH.
    + specialize (IH None).
      destruct (countdown ts None) as [tr r]; simpl in *. exact IH.
Qed.







(** *** The clipboard writer *)

(** Evaluating the unbound name [get_settings] raises NameError. *)
Lemma get_settings_unbound :
  global module_names "get_settings" = raise (NameError "get_settings").
Proof. reflexivity. Qed.

(** C3. In the module as written, [ClipboardWriter.display_field] never
    runs the clipboard command: after resolving the field and logging,
    it stops on the unbound name [get_settings], so it neither sets nor
    clears the clipboard and shows no count-down. *)
Theorem clipboard_writer_never_runs_xsel (env : Env) (a : Account)
    (field : string) (ctrl_c : option nat) :
  let m := ClipboardWriter.display_field module_names env a field ctrl_c in
  ran (trace m) = []
  /\ ~ In CursorClear (trace m)
  /\ exists s, result m = inr s
               /\ (s = Uncaught (NameError "get_settings")
                   \/ exists err, s = Terminate err).
Proof.
  unfold ClipboardWriter.display_field, fetch_text.
  destruct (split_name a (Some field)) as [name k].
  destruct (get_field a name k) as [v | err]; cbn.
  - split; [reflexivity |]. split.
    + intros [H | []]. discriminate H.
    + eexists. split; [reflexivity | now left].
  - split; [reflexivity |]. split; [intros [] |].
    eexists. split; [reflexivity | right; now exists err].
Qed.

(** No path through the clipboard writer calls [warn], whatever the
    module namespace is. *)
Lemma clipboard_never_warns (names : list string) (env : Env) (a : Account)
    (field : string) (ctrl_c : option nat) :
  warned (trace (ClipboardWriter.display_field names env a field ctrl_c)) = [].
Proof.
  unfold ClipboardWriter.display_field, fetch_text, global.
  destruct (split_name a (Some field)) as [name k].
  destruct (get_field a name k) as [v | err]; [| reflexivity].
  simpl.
  destruct (str_in "get_settings" names); [| reflexivity].
  simpl. destruct (is_secret a name k); [| reflexivity].
  destruct (countdown_quiet (range_down (display_time env)) ctrl_c)
    as (_ & Hw & _ & Hr).
  destruct (countdown _ ctrl_c) as [tr r]; simpl in *.
  destruct Hr as [-> | ->]; simpl;
    rewrite ?warned_app, Hw; reflexivity.
Qed.

(** C8, as stated, fails for the clipboard: a secret whose text keeps a
    line break inside is disclosed (or attempted) without any warning. *)
Lemma clipboard_multiline_secret_unwarned :
  is_secret (Sample.login Sample.two_lines) "passcode" None = true
  /\ char_in chr_nl (strip (dedent Sample.flat_env Sample.two_lines)) = true
  /\ warned (trace (ClipboardWriter.display_field module_names Sample.flat_env
                      (Sample.login Sample.two_lines) "passcode" None)) = []
  /\ warned (trace (ClipboardWriter.display_field ("get_settings" :: module_names)
                      Sample.flat_env (Sample.login Sample.two_lines)
                      "passcode" None)) = [].
Proof. repeat split; reflexivity. Qed.

(** C8, amended. On the terminal, a secret whose text (after [dedent]
    and [strip]) still contains a line break is announced by the
    warning that it will not be fully concealed. *)
Theorem tty_warns_multiline_secret (env : Env) (a : Account)
    (field name : string) (k : key) (v : field_value) (ctrl_c : bool) :
  split_name a (Some field) = (name, k) ->
  is_secret a name k = true ->
  get_field a name k = Value v ->
  char_in chr_nl (strip (dedent env (str_of v))) = true ->
  warned (trace (TTY_Writer.display_field env a field ctrl_c))
  = [("secret contains newlines, will not be fully concealed.", k)].
Proof.
  intros Hn Hs Hf Hc.
  unfold TTY_Writer.display_field, fetch_text.
  rewrite Hn, Hs, Hf. simpl. rewrite Hc. simpl.
  destruct ctrl_c; reflexivity.
Qed.

Lemma tty_warns_multiline_secret_witness :
  warned (trace (TTY_Writer.display_field Sample.flat_env
                   (Sample.login Sample.two_lines) "passcode" false))
  = [("secret contains newlines, will not be fully concealed.", None)].
Proof.
  apply (tty_warns_multiline_secret Sample.flat_env
           (Sample.login Sample.two_lines) "passcode" "passcode" None
           {| str_of := Sample.two_lines; get_name := None |} false);
    reflexivity.
Defined.

(** *** The autotype script interpreter *)

(** A term that is not bracketed by braces is appended to the
    keystrokes only; the transcript is left as it was. *)
Lemma literal_term_not_in_transcript (env : Env) (a : Account) (b : buffers)
    (term : string) :
  bracketed "{" "}" term = false ->
  run_term env a b term
  = ret {| out := out b ++ [term]; scrubbed := scrubbed b |}.
Proof. intros H. unfold run_term. now rewrite H. Qed.

(** C4. The script of the specification types [foo: bar] and a line
    feed, but its transcript is [foo<passcode>] and a line feed: the
    literal text [: ] between the two commands is missing from it. *)
Theorem literal_text_missing_from_transcript :
  let m := KeyboardWriter.run_script Sample.flat_env (Sample.login "bar")
             (Some "{username}: {passcode}{return}") in
  m = ([ Sleep INITIAL_AUTOTYPE_DELAY;
         Log [autotyping ("foo<passcode>" +:+ nl)];
         Run (keystrokes Sample.flat_env ("foo: bar" +:+ nl)) None ],
       inl tt)
  /\ logged (trace m) <> [[autotyping ("foo: <passcode>" +:+ nl)]].
Proof. split; [reflexivity | discriminate]. Qed.

Lemma unmapped_reports_no_sleep (l : list ascii) (d : duration) :
  ~ In (Sleep d) (unmapped_reports l).
Proof.
  unfold unmapped_reports. rewrite in_flat_map. intros (c & _ & Hin).
  destruct (keysym_of c); [destruct Hin |].
  destruct Hin as [H | []]. discriminate H.
Qed.

(** C5. No sleep command ever pauses: once the block for it is entered,
    the run ends with the syntax error report, without a call of [sleep]
    that completes.  For a well-formed command between two field
    references, the pending keystrokes are typed, the run ends there, and
    nothing is logged. *)
Theorem sleep_command_aborts_run :
  (forall env b cmd term,
      exists t,
        sleep_command env b cmd term
        = (t, inr (Fatal "syntax error in keyboard script." term))
        /\ forall d, ~ In (Sleep d) t)
  /\ KeyboardWriter.run_script Sample.flat_env (Sample.login "bar")
       (Some "{username}{sleep 1}{passcode}")
     = ([ Sleep INITIAL_AUTOTYPE_DELAY;
          Run (keystrokes Sample.flat_env "foo") None ],
        inr (Fatal "syntax error in keyboard script." "{sleep 1}")).
Proof.
  split; [| reflexivity].
  intros env b cmd term.
  destruct (sleep_command_fatal env b cmd term) as (t & Ht & _ & Hshape).
  exists t. split; [exact Ht |].
  intros d Hin. destruct Hshape as [-> | [_ ->]]; [destruct Hin |].
  rewrite autotype_spec in Hin. simpl in Hin.
  apply in_app_or in Hin as [Hin | [Hin | []]].
  - now apply unmapped_reports_no_sleep in Hin.
  - discriminate Hin.
Qed.

(** C6. A malformed sleep command next to literal text is not split off
    as a command: the run ends normally and types the braces, the word
    and its argument like any other text. *)
Theorem sleep_beside_text_is_typed :
  regex_split "x{sleep abc}y" = ["x{sleep abc}y"]
  /\ KeyboardWriter.run_script Sample.flat_env (Sample.login "bar") (Some "x{sleep abc}y")
     = ([ Sleep INITIAL_AUTOTYPE_DELAY;
          Log [autotyping ""];
          Run [ "/usr/bin/xdotool"; "key"; "--clearmodifiers";
                "x"; "braceleft"; "s"; "l"; "e"; "e"; "p"; "space";
                "a"; "b"; "c"; "braceright"; "y" ] None ],
        inl tt).
Proof. split; reflexivity. Qed.

(** Where the sleep command is a term of its own, the run does end
    there, and nothing after it is typed. *)
Lemma sleep_term_ends_run (env : Env) (a : Account) (b : buffers)
    (term : string) (rest : list string) :
  bracketed "{" "}" term = true ->
  startswith (lower (slice_1_m1 term)) "sleep " = true ->
  exists t,
    run_terms env a b (term :: rest)
    = (t, inr (Fatal "syntax error in keyboard script." term))
    /\ (t = [] \/ (out b <> [] /\ t = trace (autotype env (join (out b))))).
Proof.
  intros Hb Hs. simpl. unfold run_term. rewrite Hb.
  assert (String.eqb (lower (slice_1_m1 term)) "tab" = false) as ->.
  { destruct (String.eqb_spec (lower (slice_1_m1 term)) "tab") as [E |];
      [rewrite E in Hs; discriminate | reflexivity]. }
  assert (String.eqb (lower (slice_1_m1 term)) "return" = false) as ->.
  { destruct (String.eqb_spec (lower (slice_1_m1 term)) "return") as [E |];
      [rewrite E in Hs; discriminate | reflexivity]. }
  rewrite Hs.
  destruct (sleep_command_fatal env b (split_ws (lower (slice_1_m1 term))) term)
    as (t & -> & _ & Ht).
  exists t. split; [reflexivity | exact Ht].
Qed.

(** C9. A character of the buffer without a key name is reported as an
    error and left out; the run goes on, and the key names of the other
    characters are handed to the keyboard in their original order. *)
Theorem autotype_skips_unmapped (env : Env) (text : string)
    (before after : list ascii) (c : ascii) :
  chars text = before ++ c :: after ->
  keysym_of c = None ->
  let m := autotype env text in
  result m = inl tt
  /\ In (Err "cannot map to keysym, unknown" (Some (String c EmptyString)))
        (trace m)
  /\ ran (trace m)
     = [[xdotool_executable env; "key"; "--clearmodifiers"]
        ++ typed_keys before ++ typed_keys after].
Proof.
  intros Ht Hc m. subst m. rewrite autotype_spec. unfold keystrokes.
  rewrite Ht, typed_keys_app, unmapped_reports_app. simpl. rewrite Hc.
  split; [reflexivity |]. split.
  - apply in_or_app. left. apply in_or_app. right. now left.
  - rewrite ran_app, ran_app. simpl.
    now rewrite !unmapped_reports_not_ran.
Qed.

Lemma autotype_skips_unmapped_witness :
  result (autotype Sample.flat_env (String "a" (String Sample.bell "b: c")))
  = inl tt
  /\ In (Err "cannot map to keysym, unknown"
             (Some (String Sample.bell EmptyString)))
        (trace (autotype Sample.flat_env
                  (String "a" (String Sample.bell "b: c"))))
  /\ ran (trace (autotype Sample.flat_env
                   (String "a" (String Sample.bell "b: c"))))
     = [["/usr/bin/xdotool"; "key"; "--clearmodifiers";
         "a"; "b"; "colon"; "space"; "c"]].
Proof.
  apply (autotype_skips_unmapped Sample.flat_env
           (String "a" (String Sample.bell "b: c"))
           ["a"%char] (chars "b: c") Sample.bell);
    reflexivity.
Defined.

End WriterFacts.

(* ===================================================================== *)
(** ** Facts about the add and edit commands *)
(* ===================================================================== *)

Module CommandFacts.
Import Py Eff Command.

Lemma length_append (s t : string) :
  String.length (s +:+ t) = String.length s + String.length t.
Proof. induction s as [| c s IH]; simpl; [reflexivity | now rewrite IH]. Qed.

(** The backup never lies on the file it copies. *)
Lemma backup_path_fresh (path : string) : backup_path path ".saved" <> path.
Proof.
  intros H. apply (f_equal String.length) in H.
  unfold backup_path in H. rewrite length_append in H. simpl in H. lia.
Qed.

Lemma backup_spec (fs : files) (path orig : string) :
  fs !! path = Some orig ->
  backup fs path ".saved" = Some (<[backup_path path ".saved" := orig]> fs).
Proof. intros H. unfold backup. now rewrite H. Qed.

Lemma restore_lookup (fs : files) (path orig : string) :
  fs !! backup_path path ".saved" = Some orig ->
  restore fs path ".saved" !! path = Some orig
  /\ restore fs path ".saved" !! backup_path path ".saved" = Some orig
  /\ forall other, other <> path ->
                   restore fs path ".saved" !! other = fs !! other.
Proof.
  intros H. unfold restore. rewrite H. split; [| split].
  - apply lookup_insert_eq.
  - rewrite lookup_insert_ne; [exact H |].
    intros E. now apply (backup_path_fresh path).
  - intros other Ho. now rewrite lookup_insert_ne.
Qed.

Lemma editor_open_other (fs : files) (path other : string) (s : session) :
  other <> path -> editor_open fs path s !! other = fs !! other.
Proof.
  intros H. unfold editor_open.
  destruct (edited s); [now rewrite lookup_insert_ne | now rewrite lookup_delete_ne].
Qed.

Lemma editor_open_self (fs : files) (path : string) (s : session) :
  editor_open fs path s !! path = edited s.
Proof.
  unfold editor_open.
  destruct (edited s); [apply lookup_insert_eq | apply lookup_delete_eq].
Qed.

(** *** Rollback after a declined retry *)

Lemma edit_loop_declined (ext : Ext) (path orig : string)
    (retried : list session) (last : session) :
  Forall (fun s => edit_fails ext s && retries s = true) retried ->
  edit_fails ext last && declines last = true ->
  forall fs evs,
    fs !! backup_path path ".saved" = Some orig ->
    let r := edit_loop ext path fs evs (retried ++ [last]) in
    disk r !! path = Some orig
    /\ disk r !! backup_path path ".saved" = Some orig
    /\ In (Restore path) (shown r)
    /\ ended r = PasswordError (Msg "Giving up, restoring original version.").
Proof.
  intros Hre Hlast.
  induction Hre as [| s retried Hs _ IH]; intros fs evs Hbk; simpl.
  - apply andb_prop in Hlast as [Hf Hd].
    unfold edit_fails, rejected in Hf. unfold declines in Hd.
    rewrite editor_open_self.
    destruct (edited last) as [text |]; [| discriminate].
    destruct (parse ext text) as [e |]; [| discriminate].
    destruct (accepts (answer last)); [discriminate |]. simpl.
    assert (Hbk' : editor_open fs path last !! backup_path path ".saved"
                   = Some orig).
    { rewrite editor_open_other; [exact Hbk | apply backup_path_fresh]. }
    destruct (restore_lookup _ path orig Hbk') as (H1 & H2 & _).
    repeat split; try assumption.
    apply in_or_app. right. now left.
  - apply andb_prop in Hs as [Hf Ha].
    unfold edit_fails, rejected in Hf. unfold retries in Ha.
    rewrite editor_open_self.
    destruct (edited s) as [text |]; [| discriminate].
    destruct (parse ext text) as [e |]; [| discriminate].
    rewrite Ha. apply IH.
    rewrite editor_open_other; [exact Hbk | apply backup_path_fresh].
Qed.

Lemma add_loop_declined (ext : Ext) (path template tmpfilename code orig : string)
    (retried : list session) (last : session) :
  tmpfilename <> path ->
  tmpfilename <> backup_path path ".saved" ->
  Forall (fun s => add_fails ext code template s && retries s = true) retried ->
  add_fails ext code template last && declines last = true ->
  forall fs evs,
    fs !! backup_path path ".saved" = Some orig ->
    let r := add_loop ext path template tmpfilename (strip_chars nl code)
               fs evs (retried ++ [last]) in
    disk r !! path = Some orig
    /\ disk r !! backup_path path ".saved" = Some orig
    /\ disk r !! tmpfilename = edited last
    /\ In (Restore path) (shown r)
    /\ ended r = Returned.
Proof.
  intros Htp Htb Hre Hlast.
  induction Hre as [| s retried Hs _ IH]; intros fs evs Hbk; simpl.
  - apply andb_prop in Hlast as [Hf Hd].
    unfold add_fails, rejected, unchanged in Hf. unfold declines in Hd.
    pose proof (editor_open_self fs tmpfilename last) as Hself.
    rewrite Hself.
    destruct (edited last) as [new |]; [| discriminate].
    apply andb_prop in Hf as [Hu Hp].
    apply negb_true_iff in Hu. rewrite Hu.
    destruct (parse ext _) as [e |]; [| discriminate].
    destruct (accepts (answer last)); [discriminate |].
    unfold abandon. simpl.
    set (fs' := <[path := _]> (editor_open fs tmpfilename last)).
    assert (Hbk' : fs' !! backup_path path ".saved" = Some orig).
    { subst fs'. rewrite lookup_insert_ne by (apply not_eq_sym, backup_path_fresh).
      rewrite editor_open_other; [exact Hbk | now apply not_eq_sym]. }
    destruct (restore_lookup fs' path orig Hbk') as (H1 & H2 & H3).
    repeat split; try assumption.
    + rewrite H3 by exact Htp. subst fs'.
      rewrite lookup_insert_ne by (now apply not_eq_sym). exact Hself.
    + apply in_or_app. right. now left.
  - apply andb_prop in Hs as [Hf Ha].
    unfold add_fails, rejected, unchanged in Hf. unfold retries in Ha.
    rewrite editor_open_self.
    destruct (edited s) as [new |] eqn:He; [| discriminate].
    apply andb_prop in Hf as [Hu Hp].
    apply negb_true_iff in Hu. rewrite Hu.
    destruct (parse ext _) as [e |]; [| discriminate].
    rewrite Ha. apply IH.
    rewrite lookup_insert_ne by (apply not_eq_sym, backup_path_fresh).
    rewrite editor_open_other; [exact Hbk | now apply not_eq_sym].
Qed.

(** C1. When every editor session leaves text that fails to load and
    the user, after any number of accepted retries, declines the retry
    prompt, [edit] and [add] restore the accounts file from the backup
    taken at the start: its bytes are those it had before the command
    began. *)
Theorem declined_retry_restores_original (ext : Ext) (fs : files)
    (path orig : string) :
  fs !! path = Some orig ->
  (forall retried last,
      Forall (fun s => edit_fails ext s && retries s = true) retried ->
      edit_fails ext last && declines last = true ->
      disk (Edit.run ext fs path (retried ++ [last])) !! path = fs !! path
      /\ In (Restore path) (shown (Edit.run ext fs path (retried ++ [last])))
      /\ ended (Edit.run ext fs path (retried ++ [last]))
         = PasswordError (Msg "Giving up, restoring original version."))
  /\ (forall template tmpfilename retried last,
         parse ext orig = None ->
         tmpfilename <> path ->
         tmpfilename <> backup_path path ".saved" ->
         Forall (fun s => add_fails ext orig template s && retries s = true)
                retried ->
         add_fails ext orig template last && declines last = true ->
         disk (Add.run ext fs path template tmpfilename (retried ++ [last]))
           !! path = fs !! path
         /\ In (Restore path)
               (shown (Add.run ext fs path template tmpfilename
                         (retried ++ [last])))
         /\ disk (Add.run ext fs path template tmpfilename (retried ++ [last]))
              !! tmpfilename = edited last).
Proof.
  intros Hfs. split.
  - intros retried last Hre Hlast. unfold Edit.run.
    rewrite (backup_spec fs path orig Hfs), Hfs.
    destruct (edit_loop_declined ext path orig retried last Hre Hlast
                (<[backup_path path ".saved" := orig]> fs) [Backup path])
      as (H1 & _ & H3 & H4); [apply lookup_insert_eq | auto].
  - intros template tmpfilename retried last Hp Htp Htb Hre Hlast.
    unfold Add.run.
    rewrite Hfs, Hp, (backup_spec fs path orig Hfs).
    destruct (add_loop_declined ext path template tmpfilename orig orig
                retried last Htp Htb Hre Hlast
                (<[tmpfilename := template]>
                   (<[backup_path path ".saved" := orig]> fs))
                [Backup path; Save tmpfilename])
      as (H1 & _ & H3 & H4 & _); [| auto].
    rewrite lookup_insert_ne by exact Htb. apply lookup_insert_eq.
Qed.

Lemma declined_retry_restores_original_witness :
  disk (Edit.run Sample.strict Sample.on_disk Sample.accounts_path
          ([ {| edited := Some "a = !"; answer := "Yes" |} ]
           ++ [ {| edited := Some "a = !!"; answer := "n" |} ]))
    !! Sample.accounts_path = Some Sample.original
  /\ disk (Add.run Sample.strict Sample.on_disk Sample.accounts_path
             Sample.template Sample.tmp_path
             ([ {| edited := Some "b = !"; answer := "y" |} ]
              ++ [ {| edited := Some "b = <<!>>"; answer := "" |} ]))
       !! Sample.accounts_path = Some Sample.original.
Proof.
  destruct (declined_retry_restores_original Sample.strict Sample.on_disk
              Sample.accounts_path Sample.original eq_refl) as [He Ha].
  split.
  - apply (He [ {| edited := Some "a = !"; answer := "Yes" |} ]
              {| edited := Some "a = !!"; answer := "n" |}).
    + repeat constructor.
    + reflexivity.
  - apply (Ha Sample.template Sample.tmp_path
              [ {| edited := Some "b = !"; answer := "y" |} ]
              {| edited := Some "b = <<!>>"; answer := "" |}).
    + reflexivity.
    + discriminate.
    + discriminate.
    + repeat constructor.
    + reflexivity.
Defined.

(** *** The no-op outcome *)

(** C7, as stated, fails for [edit], which has no unchanged-text test:
    it ends without any report when the file is left as it was, and
    when the editor leaves an empty file that loads, that empty file
    is what remains. *)
Lemma edit_has_no_noop_outcome :
  (Sample.on_disk !! Sample.accounts_path = Some Sample.original
   /\ shown (Edit.run Sample.strict Sample.on_disk Sample.accounts_path
               [ {| edited := Some Sample.original; answer := "" |} ])
      = [Backup Sample.accounts_path; Editor Sample.accounts_path]
   /\ ~ reports (Edit.run Sample.strict Sample.on_disk Sample.accounts_path
                   [ {| edited := Some Sample.original; answer := "" |} ]))
  /\ (disk (Edit.run Sample.strict Sample.on_disk Sample.accounts_path
              [ {| edited := Some ""; answer := "" |} ])
        !! Sample.accounts_path = Some ""
      /\ ~ reports (Edit.run Sample.strict Sample.on_disk Sample.accounts_path
                      [ {| edited := Some ""; answer := "" |} ])).
Proof.
  assert (Hno : forall p, ~ exists text, In (Output text) [Backup p; Editor p]).
  { intros p [text [H | [H | []]]]; discriminate H. }
  repeat split; try reflexivity; apply Hno.
Qed.

(** C7, amended. In [add], when the text read back in the first editor
    session is blank or equal to the template, the command prints
    [Unchanged, and so ignored.] and returns: the accounts file is not
    saved, the backup is neither removed nor restored, and the
    accounts file holds its original bytes.  In [edit], when the editor
    leaves the file as it was, the command returns with the file and
    its backup in place and reports nothing. *)
Theorem unchanged_text_leaves_file (ext : Ext) (fs : files)
    (path orig : string) :
  fs !! path = Some orig ->
  parse ext orig = None ->
  (forall template tmpfilename s rest new,
      tmpfilename <> path ->
      tmpfilename <> backup_path path ".saved" ->
      edited s = Some new ->
      unchanged template new = true ->
      let r := Add.run ext fs path template tmpfilename (s :: rest) in
      shown r = [ Backup path; Save tmpfilename; Editor tmpfilename;
                  Output "Unchanged, and so ignored." ]
      /\ ended r = Returned
      /\ disk r !! path = Some orig
      /\ disk r !! backup_path path ".saved" = Some orig
      /\ disk r !! tmpfilename = Some new)
  /\ (forall s rest,
         edited s = Some orig ->
         let r := Edit.run ext fs path (s :: rest) in
         shown r = [Backup path; Editor path]
         /\ ended r = Returned
         /\ disk r !! path = Some orig
         /\ disk r !! backup_path path ".saved" = Some orig).
Proof.
  intros Hfs Hp. split.
  - intros template tmpfilename s rest new Htp Htb He Hu r. subst r.
    unfold Add.run. rewrite Hfs, Hp, (backup_spec fs path orig Hfs).
    simpl. rewrite editor_open_self, He.
    unfold unchanged in Hu. rewrite Hu. simpl.
    repeat split.
    + rewrite editor_open_other by (now apply not_eq_sym).
      rewrite lookup_insert_ne by exact Htp.
      rewrite lookup_insert_ne by (apply backup_path_fresh). exact Hfs.
    + rewrite editor_open_other by (now apply not_eq_sym).
      rewrite lookup_insert_ne by exact Htb. apply lookup_insert_eq.
    + now rewrite editor_open_self.
  - intros s rest He r. subst r.
    unfold Edit.run. rewrite (backup_spec fs path orig Hfs).
    simpl. rewrite editor_open_self, He, Hp. simpl.
    repeat split.
    + now rewrite editor_open_self.
    + rewrite editor_open_other by (apply backup_path_fresh).
      apply lookup_insert_eq.
Qed.

Lemma unchanged_text_leaves_file_witness :
  shown (Add.run Sample.strict Sample.on_disk Sample.accounts_path
           Sample.template Sample.tmp_path
           [ {| edited := Some Sample.template; answer := "" |} ])
  = [ Backup Sample.accounts_path; Save Sample.tmp_path;
      Editor Sample.tmp_path; Output "Unchanged, and so ignored." ]
  /\ shown (Edit.run Sample.strict Sample.on_disk Sample.accounts_path
              [ {| edited := Some Sample.original; answer := "" |} ])
     = [Backup Sample.accounts_path; Editor Sample.accounts_path].
Proof.
  destruct (unchanged_text_leaves_file Sample.strict Sample.on_disk
              Sample.accounts_path Sample.original eq_refl eq_refl)
    as [Ha He].
  split.
  - apply (Ha Sample.template Sample.tmp_path
              {| edited := Some Sample.template; answer := "" |} []
              Sample.template);
      [discriminate | discriminate | reflexivity | reflexivity].
  - apply (He {| edited := Some Sample.original; answer := "" |} []).
    reflexivity.
Defined.

(** C10. A no-op outcome of [add] in the session after an accepted
    retry: the command prints [Unchanged, and so ignored.] and returns,
    and the accounts file keeps the rejected text saved before the
    retry; the backup with the original bytes and the temporary file
    are left on disk. *)
Theorem add_noop_after_retry_keeps_rejected_text :
  shown (Add.run Sample.strict Sample.on_disk Sample.accounts_path
           Sample.template Sample.tmp_path
           [ {| edited := Some "b = !"; answer := "y" |};
             {| edited := Some ""; answer := "" |} ])
  = [ Backup Sample.accounts_path; Save Sample.tmp_path;
      Editor Sample.tmp_path; Save Sample.accounts_path;
      Err "invalid syntax" None; Query "Try again?";
      Editor Sample.tmp_path; Output "Unchanged, and so ignored." ]
  /\ disk (Add.run Sample.strict Sample.on_disk Sample.accounts_path
             Sample.template Sample.tmp_path
             [ {| edited := Some "b = !"; answer := "y" |};
               {| edited := Some ""; answer := "" |} ])
     !! Sample.accounts_path
     = Some ("a = 1" +:+ nl +:+ nl +:+ nl +:+ "b = !" +:+ nl)
  /\ Sample.on_disk !! Sample.accounts_path = Some ("a = 1" +:+ nl)
  /\ disk (Add.run Sample.strict Sample.on_disk Sample.accounts_path
             Sample.template Sample.tmp_path
             [ {| edited := Some "b = !"; answer := "y" |};
               {| edited := Some ""; answer := "" |} ])
     !! backup_path Sample.accounts_path ".saved" = Some ("a = 1" +:+ nl)
  /\ disk (Add.run Sample.strict Sample.on_disk Sample.accounts_path
             Sample.template Sample.tmp_path
             [ {| edited := Some "b = !"; answer := "y" |};
               {| edited := Some ""; answer := "" |} ])
     !! Sample.tmp_path = Some "".
Proof. repeat split; reflexivity. Qed.

End CommandFacts.

(* ===================================================================== *)
(** ** More about the tokenizer and the keyboard *)
(* ===================================================================== *)

Module KeyboardFacts.
Import Py Eff Writer WriterTerms.

Lemma span_word_words (l : list ascii) :
  forallb word_char (fst (span_word l)) = true.
Proof.
  induction l as [| c l IH]; simpl; [reflexivity |].
  destruct (word_char c) eqn:Hc; [| reflexivity].
  destruct (span_word l) as [w r]. simpl in *. now rewrite Hc, IH.
Qed.

Lemma match_command_shape (l m : list ascii) :
  match_command l = Some m -> command_text (str m) = true.
Proof.
  unfold match_command, command_text.
  destruct l as [| c t]; [discriminate |].
  destruct (Ascii.eqb_spec c "{") as [-> |]; [| discriminate].
  pose proof (span_word_words t) as Hw.
  destruct (span_word t) as [[| w0 w] [| d r]]; try discriminate.
  destruct (Ascii.eqb_spec d "}") as [-> |]; [| discriminate].
  intros [= <-]. rewrite PyFacts.chars_str.
  cbv iota beta. rewrite !app_comm_cons.
  rewrite last_last, removelast_last. simpl in Hw. simpl.
  exact Hw.
Qed.

Lemma regex_split_aux_alternates (l : list ascii) :
  forall skip cur, alternates (regex_split_aux l skip cur) = true.
Proof.
  induction l as [| c t IH]; intros skip cur; [reflexivity |].
  destruct skip as [| k]; cbn [regex_split_aux]; [| apply IH].
  destruct (match_command (c :: t)) as [m |] eqn:Hm; [| apply IH].
  cbn [alternates]. now rewrite (match_command_shape _ _ Hm), IH.
Qed.

(** X1. The pieces [regex.split] returns, joined, are the script: no
    character is lost or added by the tokenizer. *)
Theorem split_pieces_rebuild_script (script : string) :
  join (regex_split script) = script.
Proof.
  unfold regex_split.
  rewrite WriterFacts.regex_split_aux_join by lia.
  simpl. apply PyFacts.str_chars.
Qed.

(** X2. [regex.split] returns a piece of text, then alternately a
    command of the form [{word}] and a piece of text: an odd number of
    pieces, with the commands at the odd positions. *)
Theorem split_pieces_alternate (script : string) :
  alternates (regex_split script) = true.
Proof. apply regex_split_aux_alternates. Qed.

Lemma split_without_brace (l : list ascii) :
  existsb (Ascii.eqb "{") l = false ->
  forall cur, regex_split_aux l 0 cur = [str (rev cur ++ l)].
Proof.
  induction l as [| c t IH]; intros Hb cur.
  - now rewrite app_nil_r.
  - cbn [existsb] in Hb. apply orb_false_iff in Hb as [Hc Ht].
    rewrite Ascii.eqb_sym in Hc.
    cbn [regex_split_aux match_command].
    rewrite Hc. rewrite (IH Ht). cbn [rev].
    now rewrite <- app_assoc.
Qed.

Lemma plain_text_not_bracketed (script : string) :
  char_in "{" script = false -> bracketed "{" "}" script = false.
Proof.
  unfold char_in, bracketed. destruct (chars script) as [| c t]; [reflexivity |].
  cbn [existsb]. intros H. apply orb_false_iff in H as [Hc _].
  rewrite Ascii.eqb_sym in Hc. now rewrite Hc.
Qed.

(** X3. A script without an opening brace is one piece of literal text:
    the run consults no field of the account, completes, and hands the
    keyboard exactly the keys of the script's characters. *)
Theorem plain_script_typed_verbatim (env : Env) (a : Account) (script : string) :
  char_in "{" script = false ->
  regex_split script = [script]
  /\ result (KeyboardWriter.run_script env a (Some script)) = inl tt
  /\ ran (trace (KeyboardWriter.run_script env a (Some script)))
     = [keystrokes env script].
Proof.
  intros Hb.
  assert (Hs : regex_split script = [script]).
  { unfold regex_split. rewrite split_without_brace by exact Hb.
    simpl. now rewrite PyFacts.str_chars. }
  split; [exact Hs |].
  unfold KeyboardWriter.run_script. rewrite Hs.
  cbn [run_terms].
  rewrite (WriterFacts.literal_term_not_in_transcript env a _ script
             (plain_text_not_bracketed script Hb)).
  cbn -[autotype autotyping join].
  change (join [script]) with script.
  rewrite WriterFacts.autotype_spec.
  split; [reflexivity |].
  cbn [trace fst].
  match goal with
  | |- ran (?x :: ?y :: ?l) = ?r => change (ran ([x; y] ++ l) = r)
  end.
  rewrite !WriterFacts.ran_app, WriterFacts.unmapped_reports_not_ran.
  reflexivity.
Qed.

Lemma plain_script_typed_verbatim_witness :
  ran (trace (KeyboardWriter.run_script Sample.flat_env (Sample.login "bar")
                (Some "user name")))
  = [keystrokes Sample.flat_env "user name"].
Proof.
  apply (plain_script_typed_verbatim Sample.flat_env (Sample.login "bar")
           "user name").
  reflexivity.
Defined.

Lemma keysym_iff_typeable (c : ascii) :
  keysym_of c <> None <-> typeable c = true.
Proof.
  destruct c as [[] [] [] [] [] [] [] []]; vm_compute; split;
    solve [reflexivity | discriminate | intros H; now contradiction H].
Qed.

(** X4. The characters with a key name are exactly the printable ASCII
    characters, the line feed and the tab. *)
Theorem keysym_domain (c : ascii) :
  keysym_of c <> None <-> typeable c = true.
Proof. apply keysym_iff_typeable. Qed.

Lemma in_all_chars (c : ascii) : In c all_chars.
Proof.
  unfold all_chars. rewrite <- (ascii_nat_embedding c).
  apply in_map, in_seq. split; [lia |]. simpl. apply nat_ascii_bounded.
Qed.

(** X5. Two different characters never share a key name: the key names
    sent to the keyboard determine the characters typed. *)
Theorem keysym_injective (c1 c2 : ascii) (k : string) :
  keysym_of c1 = Some k -> keysym_of c2 = Some k -> c1 = c2.
Proof.
  assert (Hall :
    forallb (fun x =>
      forallb (fun y =>
        match keysym_of x, keysym_of y with
        | Some kx, Some ky => implb (String.eqb kx ky) (Ascii.eqb x y)
        | _, _ => true
        end) all_chars) all_chars = true) by (vm_compute; reflexivity).
  intros H1 H2.
  rewrite forallb_forall in Hall.
  specialize (Hall c1 (in_all_chars c1)).
  rewrite forallb_forall in Hall.
  specialize (Hall c2 (in_all_chars c2)).
  rewrite H1, H2, String.eqb_refl in Hall. simpl in Hall.
  now apply Ascii.eqb_eq.
Qed.

Lemma keysym_injective_witness :
  keysym_of ":" = Some "colon" /\ ":"%char = ":"%char.
Proof.
  split; [reflexivity |].
  apply (keysym_injective ":" ":" "colon"); reflexivity.
Defined.

Lemma typeable_text_keys (l : list ascii) :
  forallb typeable l = true ->
  unmapped_reports l = [] /\ length (typed_keys l) = length l.
Proof.
  induction l as [| c l IH]; [now split |].
  simpl. intros H. apply andb_prop in H as [Hc Hl].
  destruct (IH Hl) as [IH1 IH2].
  apply keysym_iff_typeable in Hc.
  destruct (keysym_of c) as [k |]; [| now contradiction Hc].
  simpl. now rewrite IH1, IH2.
Qed.

(** X6. Text made of printable ASCII characters, line feeds and tabs is
    typed completely: no character is reported as unknown, and the one
    keyboard call carries one key per character. *)
Theorem typeable_text_typed_completely (env : Env) (text : string) :
  forallb typeable (chars text) = true ->
  autotype env text = ([Run (keystrokes env text) None], inl tt)
  /\ length (keystrokes env text) = 3 + String.length text.
Proof.
  intros H. destruct (typeable_text_keys _ H) as [Hr Hk].
  rewrite WriterFacts.autotype_spec, Hr. split; [reflexivity |].
  unfold keystrokes. rewrite length_app, Hk. simpl.
  unfold chars. clear. induction text as [| c text IH]; simpl; [reflexivity | lia].
Qed.

Lemma typeable_text_typed_completely_witness :
  autotype Sample.flat_env "P@ss w0rd!"
  = ([Run (keystrokes Sample.flat_env "P@ss w0rd!") None], inl tt).
Proof.
  apply (typeable_text_typed_completely Sample.flat_env "P@ss w0rd!").
  reflexivity.
Defined.

(** X7. Every character handed to [autotype] is accounted for: the
    number of keys sent plus the number of characters reported as
    unknown is the length of the text. *)
Theorem autotype_accounts_for_every_character (env : Env) (text : string) :
  length (typed_keys (chars text)) + length (unmapped_reports (chars text))
  = String.length text
  /\ trace (autotype env text)
     = unmapped_reports (chars text) ++ [Run (keystrokes env text) None].
Proof.
  split; [| now rewrite WriterFacts.autotype_spec].
  unfold chars. induction text as [| c text IH]; [reflexivity |].
  cbn [list_ascii_of_string typed_keys unmapped_reports flat_map String.length].
  rewrite !length_app.
  change (flat_map _ (list_ascii_of_string text))
    with (typed_keys (list_ascii_of_string text)) at 1.
  fold (unmapped_reports (list_ascii_of_string text)).
  destruct (keysym_of c); simpl; lia.
Qed.

End KeyboardFacts.

(* ===================================================================== *)
(** ** More about the runs of the writers *)
(* ===================================================================== *)

Module DisclosureFacts.
Import Py Eff Writer WriterTerms.

(** While the terms of a script are run, nothing is emitted unless a
    sleep command ends the run, which may flush the pending text first. *)
Lemma run_term_quiet (env : Env) (a : Account) (b : buffers) (term : string) :
  match run_term env a b term with
  | (t, inl _) => t = []
  | (t, inr (Terminate _)) => t = []
  | (t, inr (Fatal _ _)) => t = [] \/ t = trace (autotype env (join (out b)))
  | (_, inr (Uncaught _)) => False
  end.
Proof.
  unfold run_term.
  destruct (bracketed "{" "}" term); [| reflexivity].
  destruct (String.eqb _ "tab"); [reflexivity |].
  destruct (String.eqb _ "return"); [reflexivity |].
  destruct (startswith _ "sleep ").
  - destruct (WriterFacts.sleep_command_fatal env b
                (split_ws (lower (slice_1_m1 term))) term)
      as (t & -> & _ & [-> | [_ ->]]); auto.
  - unfold field_command.
    destruct (split_name a _) as [name k].
    destruct (get_field a name k); reflexivity.
Qed.

Lemma run_terms_quiet (env : Env) (a : Account) (terms : list string) :
  forall b,
    match run_terms env a b terms with
    | (t, inl _) => t = []
    | (t, inr (Terminate _)) => t = []
    | (t, inr (Fatal _ _)) =>
        t = [] \/ exists text, t = trace (autotype env text)
    | (_, inr (Uncaught _)) => False
    end.
Proof.
  induction terms as [| term terms IH]; intros b; [reflexivity |].
  cbn [run_terms]. pose proof (run_term_quiet env a b term) as H1.
  destruct (run_term env a b term) as [t1 [b1 | [m c | e | x]]];
    cbn [bind]; try contradiction.
  - subst t1. specialize (IH b1).
    destruct (run_terms env a b1 terms) as [t2 r2]. exact IH.
  - destruct H1 as [-> | ->]; [now left | right; eauto].
  - exact H1.
Qed.

(** X8. A run of a script that completes emits, after the initial
    delay, exactly one log line and then exactly one keyboard call with
    all keystrokes: the log line is written before the first key is
    typed, and nothing is typed in between. *)
Theorem completed_run_logs_then_types (env : Env) (a : Account)
    (script : option string) :
  result (KeyboardWriter.run_script env a script) = inl tt ->
  exists transcript text,
    trace (KeyboardWriter.run_script env a script)
    = [Sleep INITIAL_AUTOTYPE_DELAY; Log [autotyping transcript]]
      ++ unmapped_reports (chars text)
      ++ [Run (keystrokes env text) None].
Proof.
  unfold KeyboardWriter.run_script. cbv zeta.
  set (text := match script with Some s => s | None => default_script a end).
  pose proof (run_terms_quiet env a (regex_split text)
                {| out := []; scrubbed := [] |}) as Hq.
  destruct (run_terms env a _ (regex_split text)) as [t [b | st]].
  - subst t. cbn -[autotype autotyping join].
    rewrite WriterFacts.autotype_spec. intros _.
    exists (join (scrubbed b)), (join (out b)). reflexivity.
  - cbn. discriminate.
Qed.

Lemma completed_run_logs_then_types_witness :
  exists transcript text,
    trace (KeyboardWriter.run_script Sample.flat_env (Sample.login "bar") None)
    = [Sleep INITIAL_AUTOTYPE_DELAY; Log [autotyping transcript]]
      ++ unmapped_reports (chars text)
      ++ [Run (keystrokes Sample.flat_env text) None].
Proof.
  apply (completed_run_logs_then_types Sample.flat_env (Sample.login "bar") None).
  reflexivity.
Defined.



(** X10. A secret shown on the terminal is always cleared: the text is
    written once with the cursor, the display time is waited out unless
    the user interrupts, and in both cases the line is cleared and the
    call returns normally.  The text is never handed to [output]. *)
Theorem tty_secret_always_cleared (env : Env) (a : Account)
    (field name : string) (k : key) (v : field_value) (ctrl_c : bool) :
  split_name a (Some field) = (name, k) ->
  is_secret a name k = true ->
  get_field a name k = Value v ->
  exists warning text,
    TTY_Writer.display_field env a field ctrl_c
    = (warning
       ++ [Log ["Writing to TTY:"; combine_name a name k]; CursorWrite text]
       ++ (if ctrl_c then [] else [Sleep (Seconds (display_time env))])
       ++ [CursorClear],
       inl tt)
    /\ (warning = []
        \/ warning
           = [Warn "secret contains newlines, will not be fully concealed." k]).
Proof.
  intros Hn Hs Hf.
  unfold TTY_Writer.display_field, fetch_text. rewrite Hn, Hs, Hf.
  cbn -[strip dedent char_in].
  destruct (char_in chr_nl _); destruct ctrl_c; cbn.
  - exists [Warn "secret contains newlines, will not be fully concealed." k].
    eexists. split; [reflexivity | now right].
  - exists [Warn "secret contains newlines, will not be fully concealed." k].
    eexists. split; [reflexivity | now right].
  - exists []. eexists. split; [reflexivity | now left].
  - exists []. eexists. split; [reflexivity | now left].
Qed.

Lemma tty_secret_always_cleared_witness :
  exists warning text,
    TTY_Writer.display_field Sample.flat_env (Sample.login "bar") "passcode" true
    = (warning
       ++ [Log ["Writing to TTY:"; "passcode"]; CursorWrite text]
       ++ [] ++ [CursorClear],
       inl tt)
    /\ (warning = []
        \/ warning
           = [Warn "secret contains newlines, will not be fully concealed."
                   None]).
Proof.
  apply (tty_secret_always_cleared Sample.flat_env (Sample.login "bar")
           "passcode" "passcode" None {| str_of := "bar"; get_name := None |}
           true); reflexivity.
Defined.

(** X11. A value that is not secret is printed on the terminal with one
    [output] call, right after the log line: no wait, no cursor
    movement, no warning, and the call returns normally. *)
Theorem tty_plain_value_printed_once (env : Env) (a : Account)
    (field name : string) (k : key) (v : field_value) (ctrl_c : bool) :
  split_name a (Some field) = (name, k) ->
  is_secret a name k = false ->
  get_field a name k = Value v ->
  exists text,
    TTY_Writer.display_field env a field ctrl_c
    = ([Log ["Writing to TTY:"; combine_name a name k]; Output text], inl tt).
Proof.
  intros Hn Hs Hf.
  unfold TTY_Writer.display_field, fetch_text. rewrite Hn, Hs, Hf.
  cbn -[strip dedent char_in strip_chars].
  destruct (char_in chr_nl _); cbn; eexists; reflexivity.
Qed.

Lemma tty_plain_value_printed_once_witness :
  exists text,
    TTY_Writer.display_field Sample.flat_env (Sample.login "bar") "username"
      false
    = ([Log ["Writing to TTY:"; "username"]; Output text], inl tt).
Proof.
  apply (tty_plain_value_printed_once Sample.flat_env (Sample.login "bar")
           "username" "username" None {| str_of := "foo"; get_name := None |}
           false); reflexivity.
Defined.

(** X12. When the requested field does not resolve, the terminal and the
    clipboard writer stop with the account's error before they log,
    print, warn or run anything. *)
Theorem unresolved_field_discloses_nothing (env : Env) (a : Account)
    (field name : string) (k : key) (err : string) :
  split_name a (Some field) = (name, k) ->
  get_field a name k = Failed err ->
  (forall ctrl_c,
      TTY_Writer.display_field env a field ctrl_c = ([], inr (Terminate err)))
  /\ (forall names ctrl_c,
         ClipboardWriter.display_field names env a field ctrl_c
         = ([], inr (Terminate err))).
Proof.
  intros Hn Hf. split; intros;
    [unfold TTY_Writer.display_field | unfold ClipboardWriter.display_field];
    unfold fetch_text; rewrite Hn, Hf; reflexivity.
Qed.

Lemma unresolved_field_discloses_nothing_witness :
  TTY_Writer.display_field Sample.flat_env (Sample.login "bar") "pin" false
  = ([], inr (Terminate "not found: pin")).
Proof.
  apply (unresolved_field_discloses_nothing Sample.flat_env
           (Sample.login "bar") "pin" "pin" None "not found: pin");
    reflexivity.
Defined.

Lemma countdown_ticks (ts : list nat) :
  countdown ts None = (flat_map tick ts, inl tt).
Proof.
  induction ts as [| t ts IH]; [reflexivity |].
  cbn [countdown]. rewrite IH. reflexivity.
Qed.

Lemma countdown_interrupted (ts : list nat) :
  forall i t rest,
    skipn i ts = t :: rest ->
    countdown ts (Some i)
    = (flat_map tick (firstn i ts) ++ [CursorWrite (str_of_nat t)],
       inr (Uncaught KeyboardInterrupt)).
Proof.
  induction ts as [| t0 ts IH]; intros i t rest Hs.
  - now destruct i.
  - destruct i as [| i].
    + injection Hs as <- <-. reflexivity.
    + cbn [countdown]. cbn [skipn] in Hs. rewrite (IH i t rest Hs).
      reflexivity.
Qed.

(** X13. The count-down loop of the clipboard writer, left alone, shows
    the numbers from the display time down to 0, each for one second and
    each cleared again: it waits display time plus one seconds in all.
    Interrupted during the wait of its [i]-th number, it stops with the
    number still written and the interrupt pending. *)
Theorem countdown_shows_every_second (n : nat) :
  countdown (range_down n) None = (flat_map tick (range_down n), inl tt)
  /\ length (range_down n) = S n
  /\ (forall i, i <= n ->
        countdown (range_down n) (Some i)
        = (flat_map tick (firstn i (range_down n))
             ++ [CursorWrite (str_of_nat (n - i))],
           inr (Uncaught KeyboardInterrupt))).
Proof.
  split; [apply countdown_ticks |]. split.
  - unfold range_down. now rewrite length_rev, length_seq.
  - intros i Hi.
    assert (Hnth : exists rest, skipn i (range_down n) = (n - i) :: rest).
    { unfold range_down.
      assert (Hseq : seq 0 (S n) = seq 0 (n - i) ++ (n - i) :: seq (S (n - i)) i).
      { replace (S n) with ((n - i) + S i) by lia.
        rewrite seq_app. simpl. reflexivity. }
      rewrite Hseq, rev_app_distr. simpl. rewrite <- app_assoc. simpl.
      exists (rev (seq 0 (n - i))).
      rewrite skipn_app, length_rev, length_seq, Nat.sub_diag.
      rewrite skipn_all2 by (rewrite length_rev, length_seq; lia).
      reflexivity. }
    destruct Hnth as [rest Hrest].
    apply (countdown_interrupted _ i (n - i) rest Hrest).
Qed.

Lemma countdown_shows_every_second_witness :
  countdown (range_down 2) (Some 1)
  = (flat_map tick (firstn 1 (range_down 2)) ++ [CursorWrite (str_of_nat (2 - 1))],
     inr (Uncaught KeyboardInterrupt)).
Proof.
  destruct (countdown_shows_every_second 2) as (_ & _ & H).
  apply (H 1). lia.
Defined.

End DisclosureFacts.

(* ===================================================================== *)
(** ** More about the add and edit commands *)
(* ===================================================================== *)

Module TransactionFacts.
Import Py Eff Command CommandTerms.

Lemma edit_loop_shown (ext : Ext) (path : string) (sessions : list session) :
  forall fs evs,
    exists rest, shown (edit_loop ext path fs evs sessions) = evs ++ rest.
Proof.
  induction sessions as [| s sessions IH]; intros fs evs; cbn [edit_loop].
  - exists []. now rewrite app_nil_r.
  - destruct (editor_open fs path s !! path) as [text |]; cbn [shown].
    + destruct (parse ext text) as [e |]; cbn [shown].
      * destruct (accepts (answer s)); cbn [shown].
        -- destruct (IH (editor_open fs path s)
                       ((evs ++ [Editor path]) ++ [Err e None; Query "Try again? "]))
             as [rest ->].
           rewrite <- !app_assoc. eauto.
        -- rewrite <- !app_assoc. eauto.
      * eauto.
    + rewrite <- !app_assoc. eauto.
Qed.

Lemma add_loop_shown (ext : Ext) (path template tmpfilename code : string)
    (sessions : list session) :
  forall fs evs,
    exists rest,
      shown (add_loop ext path template tmpfilename code fs evs sessions)
      = evs ++ rest.
Proof.
  induction sessions as [| s sessions IH]; intros fs evs; cbn [add_loop].
  - exists []. now rewrite app_nil_r.
  - destruct (editor_open fs tmpfilename s !! tmpfilename) as [new |].
    + destruct (String.eqb (strip new) "" || String.eqb new template);
        cbn [shown]; [rewrite <- !app_assoc; eauto |].
      destruct (parse ext _) as [e |]; cbn [shown].
      * destruct (accepts (answer s)).
        -- match goal with
           | |- context [add_loop _ _ _ _ _ ?f ?e0 sessions] =>
               destruct (IH f e0) as [rest ->]
           end.
           rewrite <- !app_assoc. eauto.
        -- unfold abandon. cbn [shown]. rewrite <- !app_assoc. eauto.
      * rewrite <- !app_assoc. eauto.
    + unfold abandon. cbn [shown]. rewrite <- !app_assoc. eauto.
Qed.

(** X14. [edit] and [add] change the accounts file only after the backup
    has been taken: a run either stops with an error before it has done
    anything, the disk untouched, or its first action is the backup. *)
Theorem backup_precedes_every_change (ext : Ext) (fs : files)
    (path template tmpfilename : string) (sessions : list session) :
  backup_comes_first fs path (Edit.run ext fs path sessions)
  /\ backup_comes_first fs path
       (Add.run ext fs path template tmpfilename sessions).
Proof.
  unfold backup_comes_first, Edit.run, Add.run, backup. split.
  - destruct (fs !! path) as [orig |]; [| left; eauto].
    right. destruct (edit_loop_shown ext path sessions
                       (<[backup_path path ".saved" := orig]> fs) [Backup path])
      as [rest ->]. eauto.
  - destruct (fs !! path) as [orig |]; [| left; eauto].
    destruct (parse ext orig); [left; eauto |].
    right.
    match goal with
    | |- context [add_loop _ _ _ _ ?c ?f ?e0 sessions] =>
        destruct (add_loop_shown ext path template tmpfilename c sessions f e0)
          as [rest ->]
    end.
    eauto.
Qed.

Lemma restore_other (fs : files) (path other : string) :
  other <> path -> restore fs path ".saved" !! other = fs !! other.
Proof.
  intros H. unfold restore.
  destruct (fs !! backup_path path ".saved"); [| reflexivity].
  now rewrite lookup_insert_ne.
Qed.

(** The loop of [edit] writes the accounts file and nothing else. *)
Lemma edit_loop_frame (ext : Ext) (path p : string) (sessions : list session) :
  p <> path ->
  forall fs evs, disk (edit_loop ext path fs evs sessions) !! p = fs !! p.
Proof.
  intros Hp. induction sessions as [| s sessions IH]; intros fs evs;
    cbn [edit_loop]; [reflexivity |].
  pose proof (CommandFacts.editor_open_other fs path p s Hp) as Ho.
  destruct (editor_open fs path s !! path) as [text |]; cbn [disk].
  - destruct (parse ext text) as [e |]; cbn [disk]; [| exact Ho].
    destruct (accepts (answer s)); cbn [disk].
    + now rewrite IH.
    + now rewrite restore_other.
  - now rewrite restore_other.
Qed.

(** The loop of [add] writes the accounts file and the temporary file
    and nothing else. *)
Lemma add_loop_frame (ext : Ext) (path template tmpfilename code p : string)
    (sessions : list session) :
  p <> path -> p <> tmpfilename ->
  forall fs evs,
    disk (add_loop ext path template tmpfilename code fs evs sessions) !! p
    = fs !! p.
Proof.
  intros Hp Ht. induction sessions as [| s sessions IH]; intros fs evs;
    cbn [add_loop]; [reflexivity |].
  pose proof (CommandFacts.editor_open_other fs tmpfilename p s Ht) as Ho.
  destruct (editor_open fs tmpfilename s !! tmpfilename) as [new |].
  - destruct (String.eqb (strip new) "" || String.eqb new template);
      cbn [disk]; [exact Ho |].
    destruct (parse ext _) as [e |]; cbn [disk].
    + destruct (accepts (answer s)).
      * rewrite IH. now rewrite lookup_insert_ne by (now apply not_eq_sym).
      * unfold abandon. cbn [disk]. rewrite restore_other by exact Hp.
        now rewrite lookup_insert_ne by (now apply not_eq_sym).
    + rewrite lookup_delete_ne by (now apply not_eq_sym).
      now rewrite lookup_insert_ne by (now apply not_eq_sym).
  - unfold abandon. cbn [disk]. now rewrite restore_other.
Qed.

(** X15. Once the backup is taken it holds the original bytes at every
    exit of [edit] and [add], whatever the editor sessions and replies
    are: commit, rollback, no-op or an editor still open. *)
Theorem backup_holds_original_throughout (ext : Ext) (fs : files)
    (path orig : string) :
  fs !! path = Some orig ->
  (forall sessions,
      disk (Edit.run ext fs path sessions) !! backup_path path ".saved"
      = Some orig)
  /\ (forall template tmpfilename sessions,
         parse ext orig = None ->
         tmpfilename <> backup_path path ".saved" ->
         disk (Add.run ext fs path template tmpfilename sessions)
           !! backup_path path ".saved" = Some orig).
Proof.
  intros Hfs. split.
  - intros sessions. unfold Edit.run.
    rewrite (CommandFacts.backup_spec fs path orig Hfs).
    rewrite edit_loop_frame by (apply CommandFacts.backup_path_fresh).
    apply lookup_insert_eq.
  - intros template tmpfilename sessions Hp Ht. unfold Add.run.
    rewrite Hfs, Hp, (CommandFacts.backup_spec fs path orig Hfs).
    rewrite add_loop_frame
      by (try apply CommandFacts.backup_path_fresh; now apply not_eq_sym).
    rewrite lookup_insert_ne by exact Ht. apply lookup_insert_eq.
Qed.

Lemma backup_holds_original_throughout_witness :
  disk (Add.run Sample.strict Sample.on_disk Sample.accounts_path
          Sample.template Sample.tmp_path
          [ {| edited := Some "b = !"; answer := "y" |};
            {| edited := None; answer := "" |} ])
    !! backup_path Sample.accounts_path ".saved" = Some Sample.original.
Proof.
  destruct (backup_holds_original_throughout Sample.strict Sample.on_disk
              Sample.accounts_path Sample.original eq_refl) as [_ Ha].
  apply (Ha Sample.template Sample.tmp_path); [reflexivity | discriminate].
Defined.

(** X16. [edit] touches no file but the accounts file and its backup,
    and [add] none but these two and the temporary file: every other
    file on disk is as it was, at every exit. *)
Theorem other_files_untouched (ext : Ext) (fs : files)
    (path template tmpfilename p : string) (sessions : list session) :
  p <> path ->
  p <> backup_path path ".saved" ->
  disk (Edit.run ext fs path sessions) !! p = fs !! p
  /\ (p <> tmpfilename ->
      disk (Add.run ext fs path template tmpfilename sessions) !! p = fs !! p).
Proof.
  intros Hp Hb. split.
  - unfold Edit.run, backup.
    destruct (fs !! path) as [orig |]; [| reflexivity].
    rewrite edit_loop_frame by exact Hp.
    now rewrite lookup_insert_ne by (now apply not_eq_sym).
  - intros Ht. unfold Add.run, backup.
    destruct (fs !! path) as [orig |]; [| reflexivity].
    destruct (parse ext orig); [reflexivity |].
    rewrite add_loop_frame by assumption.
    rewrite lookup_insert_ne by (now apply not_eq_sym).
    now rewrite lookup_insert_ne by (now apply not_eq_sym).
Qed.

Lemma other_files_untouched_witness :
  disk (Edit.run Sample.strict Sample.on_disk Sample.accounts_path
          [ {| edited := Some "a = 2"; answer := "" |} ]) !! "config"
  = Sample.on_disk !! "config".
Proof.
  apply (other_files_untouched Sample.strict Sample.on_disk
           Sample.accounts_path Sample.template Sample.tmp_path "config");
    discriminate.
Defined.

(** The sessions that fail and are retried leave the loop of [edit]
    where it was, with the rejected text on disk and the rounds shown. *)
Lemma edit_loop_retried (ext : Ext) (path : string) (retried : list session) :
  Forall (fun s => edit_fails ext s && retries s = true) retried ->
  forall fs evs rest,
    exists fs',
      edit_loop ext path fs evs (retried ++ rest)
      = edit_loop ext path fs' (evs ++ flat_map (edit_round ext path) retried)
          rest
      /\ forall p, p <> path -> fs' !! p = fs !! p.
Proof.
  induction 1 as [| s retried Hs _ IH]; intros fs evs rest.
  - exists fs. cbn. now rewrite app_nil_r.
  - apply andb_prop in Hs as [Hf Ha].
    unfold edit_fails, rejected in Hf. unfold retries in Ha.
    cbn [app edit_loop flat_map]. rewrite CommandFacts.editor_open_self.
    unfold edit_round.
    destruct (edited s) as [text |] eqn:He; [| discriminate].
    destruct (parse ext text) as [e |]; [| discriminate].
    rewrite Ha.
    destruct (IH (editor_open fs path s)
                ((evs ++ [Editor path]) ++ [Err e None; Query "Try again? "])
                rest) as (fs' & -> & Hfr).
    exists fs'. split.
    + f_equal. rewrite <- !app_assoc. reflexivity.
    + intros p Hp. rewrite Hfr by exact Hp.
      now apply CommandFacts.editor_open_other.
Qed.

Lemma add_loop_retried (ext : Ext) (path template tmpfilename code : string)
    (retried : list session) :
  Forall (fun s => add_fails ext code template s && retries s = true) retried ->
  forall fs evs rest,
    exists fs',
      add_loop ext path template tmpfilename (strip_chars nl code) fs evs
        (retried ++ rest)
      = add_loop ext path template tmpfilename (strip_chars nl code) fs'
          (evs ++ flat_map (add_round ext path tmpfilename code) retried) rest
      /\ forall p, p <> path -> p <> tmpfilename -> fs' !! p = fs !! p.
Proof.
  induction 1 as [| s retried Hs _ IH]; intros fs evs rest.
  - exists fs. cbn. now rewrite app_nil_r.
  - apply andb_prop in Hs as [Hf Ha].
    unfold add_fails, rejected, unchanged in Hf. unfold retries in Ha.
    cbn [app add_loop flat_map]. rewrite CommandFacts.editor_open_self.
    unfold add_round, candidate.
    destruct (edited s) as [new |] eqn:He; [| discriminate].
    apply andb_prop in Hf as [Hu Hp]. apply negb_true_iff in Hu. rewrite Hu.
    destruct (parse ext _) as [e |]; [| discriminate].
    rewrite Ha.
    match goal with
    | |- context [add_loop _ _ _ _ _ ?f ?e0 (retried ++ rest)] =>
        destruct (IH f e0 rest) as (fs' & -> & Hfr)
    end.
    exists fs'. split.
    + f_equal. rewrite <- !app_assoc. reflexivity.
    + intros p Hp1 Hp2. rewrite Hfr by assumption.
      rewrite lookup_insert_ne by (now apply not_eq_sym).
      now apply CommandFacts.editor_open_other.
Qed.

(** X17. When, after any number of rejected and retried sessions, the
    editor leaves text that loads, [edit] returns with that text in the
    accounts file and the original bytes in the backup; later sessions
    are not started.  The user was shown one error and one prompt per
    rejected session, and no restore took place. *)
Theorem edit_commits_accepted_text (ext : Ext) (fs : files)
    (path orig text : string) (retried rest : list session) (good : session) :
  fs !! path = Some orig ->
  Forall (fun s => edit_fails ext s && retries s = true) retried ->
  edited good = Some text ->
  parse ext text = None ->
  let r := Edit.run ext fs path (retried ++ good :: rest) in
  disk r !! path = Some text
  /\ disk r !! backup_path path ".saved" = Some orig
  /\ shown r
     = [Backup path] ++ flat_map (edit_round ext path) retried ++ [Editor path]
  /\ ended r = Returned.
Proof.
  intros Hfs Hre Hg Hp r. subst r. unfold Edit.run.
  rewrite (CommandFacts.backup_spec fs path orig Hfs).
  destruct (edit_loop_retried ext path retried Hre
              (<[backup_path path ".saved" := orig]> fs) [Backup path]
              (good :: rest)) as (fs' & -> & Hfr).
  cbn [edit_loop]. rewrite CommandFacts.editor_open_self, Hg, Hp.
  cbn [disk shown ended].
  rewrite CommandFacts.editor_open_self, Hg.
  rewrite CommandFacts.editor_open_other by (apply CommandFacts.backup_path_fresh).
  rewrite Hfr by (apply CommandFacts.backup_path_fresh).
  rewrite lookup_insert_eq, <- app_assoc. auto.
Qed.

Lemma edit_commits_accepted_text_witness :
  disk (Edit.run Sample.strict Sample.on_disk Sample.accounts_path
          ([ {| edited := Some "a = !"; answer := "y" |} ]
           ++ {| edited := Some "a = 2"; answer := "" |} :: []))
    !! Sample.accounts_path = Some "a = 2".
Proof.
  apply (edit_commits_accepted_text Sample.strict Sample.on_disk
           Sample.accounts_path Sample.original "a = 2"
           [ {| edited := Some "a = !"; answer := "y" |} ] []
           {| edited := Some "a = 2"; answer := "" |}).
  - reflexivity.
  - repeat constructor.
  - reflexivity.
  - reflexivity.
Defined.

(** X18. When, after any number of rejected and retried sessions, the
    user leaves changed text from which the new accounts file loads,
    [add] returns with the accounts file holding the original text
    (stripped of line feeds at its ends), three line feeds and the
    prepared new text; the temporary file is removed and the backup
    holds the original bytes. *)
Theorem add_commits_new_account (ext : Ext) (fs : files)
    (path template tmpfilename orig new : string)
    (retried rest : list session) (good : session) :
  fs !! path = Some orig ->
  parse ext orig = None ->
  tmpfilename <> path ->
  tmpfilename <> backup_path path ".saved" ->
  Forall (fun s => add_fails ext orig template s && retries s = true) retried ->
  edited good = Some new ->
  add_passes ext orig template good = true ->
  let r := Add.run ext fs path template tmpfilename (retried ++ good :: rest) in
  disk r !! path = Some (candidate ext orig new)
  /\ disk r !! tmpfilename = None
  /\ disk r !! backup_path path ".saved" = Some orig
  /\ shown r
     = [Backup path; Save tmpfilename]
       ++ flat_map (add_round ext path tmpfilename orig) retried
       ++ [Editor tmpfilename; Save path; Remove tmpfilename]
  /\ ended r = Returned.
Proof.
  intros Hfs Hpo Htp Htb Hre Hg Hpass r. subst r. unfold Add.run.
  rewrite Hfs, Hpo, (CommandFacts.backup_spec fs path orig Hfs).
  match goal with
  | |- context [add_loop _ _ _ _ _ ?f ?e0 _] =>
      destruct (add_loop_retried ext path template tmpfilename orig retried Hre
                  f e0 (good :: rest)) as (fs' & -> & Hfr)
  end.
  unfold add_passes, rejected, unchanged, candidate in Hpass. rewrite Hg in Hpass.
  apply andb_prop in Hpass as [Hu Hp]. apply negb_true_iff in Hu.
  cbn [add_loop]. rewrite CommandFacts.editor_open_self, Hg, Hu.
  unfold candidate.
  destruct (parse ext (_ +:+ _)) as [e |]; [discriminate |].
  cbn [disk shown ended].
  repeat split.
  - rewrite lookup_delete_ne by exact Htp. apply lookup_insert_eq.
  - apply lookup_delete_eq.
  - rewrite lookup_delete_ne by exact Htb.
    rewrite lookup_insert_ne by (apply not_eq_sym, CommandFacts.backup_path_fresh).
    rewrite CommandFacts.editor_open_other by (now apply not_eq_sym).
    rewrite Hfr by (try apply CommandFacts.backup_path_fresh; now apply not_eq_sym).
    rewrite lookup_insert_ne by exact Htb. apply lookup_insert_eq.
  - rewrite <- !app_assoc. reflexivity.
Qed.

Lemma add_commits_new_account_witness :
  disk (Add.run Sample.strict Sample.on_disk Sample.accounts_path
          Sample.template Sample.tmp_path
          ([ {| edited := Some "b = !"; answer := "y" |} ]
           ++ {| edited := Some "b = <<pw>>"; answer := "" |} :: []))
    !! Sample.tmp_path = None.
Proof.
  apply (add_commits_new_account Sample.strict Sample.on_disk
           Sample.accounts_path Sample.template Sample.tmp_path
           Sample.original "b = <<pw>>"
           [ {| edited := Some "b = !"; answer := "y" |} ] []
           {| edited := Some "b = <<pw>>"; answer := "" |}).
  - reflexivity.
  - reflexivity.
  - discriminate.
  - discriminate.
  - repeat constructor.
  - reflexivity.
  - reflexivity.
Defined.



End TransactionFacts.

(* ===================================================================== *)
(** ** The concealed spans of add *)
(* ===================================================================== *)

Module ConcealFacts.
Import Py Eff Command CommandTerms.

Lemma lazy_group_cons (c : ascii) (t : list ascii) :
  lazy_group (c :: t)
  = if Ascii.eqb c ">"
       && match t with d :: _ => Ascii.eqb d ">" | [] => false end
    then Some []
    else if Ascii.eqb c chr_nl then None
         else option_map (cons c) (lazy_group t).
Proof.
  destruct c as [[] [] [] [] [] [] [] []]; try reflexivity.
  destruct t as [| d t]; [reflexivity |].
  destruct d as [[] [] [] [] [] [] [] []]; reflexivity.
Qed.

Lemma match_hidden_cons (c : ascii) (t : list ascii) :
  match_hidden (c :: t)
  = if Ascii.eqb c "<"
    then match t with
         | d :: t' => if Ascii.eqb d "<" then lazy_group t' else None
         | [] => None
         end
    else None.
Proof.
  destruct c as [[] [] [] [] [] [] [] []]; try reflexivity.
  destruct t as [| d t]; [reflexivity |].
  destruct d as [[] [] [] [] [] [] [] []]; reflexivity.
Qed.

Lemma lazy_group_found (secret rest : list ascii) :
  existsb (fun c => Ascii.eqb c ">" || Ascii.eqb c chr_nl) secret = false ->
  lazy_group (secret ++ ">"%char :: ">"%char :: rest) = Some secret.
Proof.
  induction secret as [| c secret IH]; intros H.
  - reflexivity.
  - cbn [existsb] in H.
    apply orb_false_iff in H as [Hc Hs].
    apply orb_false_iff in Hc as [Hgt Hnl].
    cbn [app]. rewrite lazy_group_cons, Hgt, Hnl. cbn [andb].
    now rewrite (IH Hs).
Qed.

Lemma sub_hidden_skip (ext : Ext) (m rest : list ascii) :
  sub_hidden ext (m ++ rest) (length m) = sub_hidden ext rest 0.
Proof. induction m as [| c m IH]; [reflexivity | exact IH]. Qed.

Lemma sub_hidden_prefix (ext : Ext) (before rest : list ascii) :
  existsb (Ascii.eqb "<") before = false ->
  sub_hidden ext (before ++ rest) 0 = before ++ sub_hidden ext rest 0.
Proof.
  induction before as [| c before IH]; intros H; [reflexivity |].
  cbn [existsb] in H. apply orb_false_iff in H as [Hc Hb].
  rewrite Ascii.eqb_sym in Hc.
  cbn [app sub_hidden]. rewrite match_hidden_cons, Hc.
  now rewrite (IH Hb).
Qed.

Lemma sub_hidden_match (ext : Ext) (c : ascii) (t g : list ascii) :
  match_hidden (c :: t) = Some g ->
  sub_hidden ext (c :: t) 0
  = chars ("Hidden(" +:+ hide_repr ext (str g) +:+ ")")
    ++ sub_hidden ext t (length g + 3).
Proof. intros H. cbn [sub_hidden]. now rewrite H. Qed.

(** X20. In the text [add] reads back, a span between [<<] and [>>] that
    contains neither [>] nor a line feed, and that no [<] precedes, is
    replaced by [Hidden(...)] around the concealed form of exactly what
    was between the marks; the text before it is kept as it is and the
    text after it is processed in the same way.  Text without [<] is
    left unchanged. *)
Theorem marked_span_is_concealed (ext : Ext)
    (before secret after : list ascii) :
  existsb (Ascii.eqb "<") before = false ->
  existsb (fun c => Ascii.eqb c ">" || Ascii.eqb c chr_nl) secret = false ->
  sub_hidden ext (before ++ chars "<<" ++ secret ++ chars ">>" ++ after) 0
  = before ++ chars ("Hidden(" +:+ hide_repr ext (str secret) +:+ ")")
    ++ sub_hidden ext after 0
  /\ sub_hidden ext before 0 = before.
Proof.
  intros Hb Hs. split.
  - rewrite sub_hidden_prefix by exact Hb. f_equal.
    change (chars "<<" ++ secret ++ chars ">>" ++ after)
      with ("<"%char :: "<"%char :: secret ++ ">"%char :: ">"%char :: after).
    rewrite (sub_hidden_match ext "<" _ secret).
    + apply (f_equal (app _)).
      assert (Hl : "<"%char :: secret ++ ">"%char :: ">"%char :: after
                   = ("<"%char :: secret ++ [">"%char; ">"%char]) ++ after).
      { cbn [app]. rewrite <- app_assoc. reflexivity. }
      assert (Hn : length secret + 3
                   = length ("<"%char :: secret ++ [">"%char; ">"%char])).
      { cbn [length]. rewrite length_app. simpl. lia. }
      rewrite Hl, Hn. apply sub_hidden_skip.
    + rewrite match_hidden_cons. cbn [Ascii.eqb Bool.eqb].
      apply (lazy_group_found secret after Hs).
  - rewrite <- (app_nil_r before) at 1.
    rewrite sub_hidden_prefix by exact Hb. cbn. now rewrite app_nil_r.
Qed.

Lemma marked_span_is_concealed_witness :
  sub_hidden Sample.strict
    (chars "pin = " ++ chars "<<" ++ chars "1234" ++ chars ">>" ++ chars " # x")
    0
  = chars "pin = " ++ chars "Hidden('1234')" ++ chars " # x".
Proof.
  change (chars " # x") with (sub_hidden Sample.strict (chars " # x") 0) at 2.
  apply (marked_span_is_concealed Sample.strict (chars "pin = ")
           (chars "1234") (chars " # x")); reflexivity.
Defined.

End ConcealFacts.

(* ===================================================================== *)
(** ** The command table *)
(* ===================================================================== *)

Module DispatchFacts.
Import Py Dispatch.

Lemma str_in_In (x : string) (xs : list string) :
  str_in x xs = true <-> In x xs.
Proof.
  unfold str_in. rewrite existsb_exists. split.
  - intros (y & Hy & He). apply String.eqb_eq in He. now subst.
  - intros H. exists x. split; [exact H | apply String.eqb_refl].
Qed.

(** X21. No name is listed by two commands: [Command.find] returns a
    command exactly when that command lists the name, so the order in
    which the commands are defined plays no role. *)
Theorem find_returns_the_command_named (name : string) (c : command) :
  find name = Some c <-> In name (NAMES c).
Proof.
  unfold find. split.
  - intros H. apply find_some in H as [_ H]. now apply str_in_In.
  - intros H. destruct c; simpl in H;
      repeat (destruct H as [<- | H]; [reflexivity |]); contradiction.
Qed.

(** X22. [Command.execute] always runs a command and never reports an
    unknown one.  A first word that no command lists is taken for an
    account name: alone it is handed to the credentials command, and
    followed by further words to the value command, in both cases put in
    front of the arguments. *)
Theorem execute_falls_back_to_value_or_credentials (name : string)
    (args : option (list string)) :
  (exists c n a, execute name args = Runs c n a)
  /\ (find name = None ->
      execute name args
      = match args with
        | None | Some [] => Runs LoginCredentials "credentials" [name]
        | Some (x :: xs) => Runs Value "value" (name :: x :: xs)
        end).
Proof.
  unfold execute. destruct (find name) as [c |] eqn:Hf.
  - split; [eauto | discriminate].
  - assert (H : forall l,
      match find (if Nat.ltb 1 (length (name :: l)) then "value" else "credentials") with
      | Some c => Runs c (if Nat.ltb 1 (length (name :: l)) then "value" else "credentials") (name :: l)
      | None => UnknownCommand (if Nat.ltb 1 (length (name :: l)) then "value" else "credentials")
      end
      = match l with
        | [] => Runs LoginCredentials "credentials" [name]
        | x :: xs => Runs Value "value" (name :: x :: xs)
        end).
    { intros [| x xs]; reflexivity. }
    destruct args as [[| x xs] |]; cbv zeta; rewrite H; split; eauto.
Qed.

Lemma execute_falls_back_to_value_or_credentials_witness :
  execute "bank" (Some ["pin"]) = Runs Value "value" ["bank"; "pin"].
Proof.
  destruct (execute_falls_back_to_value_or_credentials "bank" (Some ["pin"]))
    as [_ H].
  apply H. reflexivity.
Defined.

End DispatchFacts.

(* ===================================================================== *)
(** ** The generator *)
(* ===================================================================== *)

Module GeneratorFacts.
Import Py Generator.

Lemma append_assoc (a b c : string) : (a +:+ b) +:+ c = a +:+ (b +:+ c).
Proof.
  induction a as [| x a IH]; [reflexivity |].
  change (String x ((a +:+ b) +:+ c) = String x (a +:+ (b +:+ c))).
  now rewrite IH.
Qed.

Lemma generate_loop_spec (rand : nat -> nat) (l : list nat) :
  forall acc,
    fold_left (fun password i =>
                 password +:+ String (choice (rand i) alphabet) "") l acc
    = acc +:+ str (map (fun i => choice (rand i) alphabet) l).
Proof.
  induction l as [| i l IH]; intros acc; cbn [fold_left map].
  - symmetry. apply PyFacts.append_empty.
  - rewrite IH, append_assoc. reflexivity.
Qed.

Lemma choice_in (r : nat) : In (choice r alphabet) (chars alphabet).
Proof.
  unfold choice. apply nth_In.
  change (length (chars alphabet)) with 94.
  change (String.length alphabet) with 94.
  apply Nat.mod_upper_bound. discriminate.
Qed.

(** X23. [generate_random_string(length)] returns [length] characters,
    whatever the random source yields; each is a character of the
    alphabet, none is a double quote, and each has a key name, so that
    the keyboard writer can type the string without leaving a character
    out. *)
Theorem random_string_is_typeable (rand : nat -> nat) (length : nat) :
  String.length (generate_random_string rand length) = length
  /\ Forall (fun c => In c (chars alphabet)
                      /\ c <> ascii_of_nat 34
                      /\ Writer.keysym_of c <> None)
            (chars (generate_random_string rand length)).
Proof.
  unfold generate_random_string. rewrite generate_loop_spec.
  change ("" +:+ ?x) with x.
  split.
  - unfold str. rewrite <- (length_seq length 0) at 2.
    generalize (seq 0 length). intros l.
    induction l as [| i l IH]; simpl; [reflexivity | now rewrite IH].
  - rewrite PyFacts.chars_str. apply Forall_map, Forall_forall.
    intros i _. pose proof (choice_in (rand i)) as Hin.
    split; [exact Hin |].
    assert (Hall : forallb (fun c => negb (Ascii.eqb c (ascii_of_nat 34))
                                     && match Writer.keysym_of c with
                                        | Some _ => true
                                        | None => false
                                        end) (chars alphabet) = true)
      by (vm_compute; reflexivity).
    rewrite forallb_forall in Hall. specialize (Hall _ Hin).
    apply andb_prop in Hall as [Hq Hk]. split.
    + intros E. rewrite E in Hq. discriminate Hq.
    + destruct (Writer.keysym_of _); [discriminate | discriminate Hk].
Qed.

Lemma length_chars (s : string) : length (chars s) = String.length s.
Proof. induction s as [| c s IH]; simpl; [reflexivity | now rewrite IH]. Qed.

Lemma length_str (l : list ascii) : String.length (str l) = length l.
Proof. induction l as [| c l IH]; simpl; [reflexivity | now rewrite IH]. Qed.

Lemma join_map_str (ls : list (list ascii)) :
  join (map str ls) = str (concat ls).
Proof.
  induction ls as [| l ls IH]; [reflexivity |].
  cbn [map concat]. now rewrite PyFacts.join_cons, IH, PyFacts.str_app.
Qed.

Lemma firstn_plus {A} (a b : nat) (l : list A) :
  firstn (a + b) l = firstn a l ++ firstn b (skipn a l).
Proof.
  revert l. induction a as [| a IH]; intros l; [reflexivity |].
  destruct l as [| x l]; simpl; [now rewrite firstn_nil | now rewrite IH].
Qed.

Lemma concat_slices {A} (l q : nat) (cs : list A) :
  concat (map (fun i => firstn l (skipn i cs))
              (map (fun k => k * l) (seq 0 q)))
  = firstn (q * l) cs.
Proof.
  induction q as [| q IH]; [reflexivity |].
  rewrite seq_S, !map_app, concat_app, IH. cbn [map concat Nat.add].
  rewrite app_nil_r. replace (S q * l) with (q * l + l) by lia.
  now rewrite firstn_plus.
Qed.

(** The arithmetic of [range(0, n, l)]: the last start is below [n] and
    one more step reaches it. *)
Lemma range_step_bounds (n l : nat) :
  1 <= l ->
  n <= (n + l - 1) / l * l
  /\ forall k, k < (n + l - 1) / l -> k * l < n.
Proof.
  intros Hl.
  pose proof (Nat.div_mod_eq (n + l - 1) l) as Hd.
  pose proof (Nat.mod_upper_bound (n + l - 1) l ltac:(lia)) as Hm.
  split; [nia |]. intros k Hk. nia.
Qed.

(** X24. For a positive width, the slices that [split] cuts a string
    into are not empty, are at most [l] characters long and, put end to
    end, are the string: no character of a long master password is lost
    or repeated when it is broken over several lines. *)
Theorem slices_rebuild_string (s : string) (l : nat) :
  1 <= l ->
  join (slices s l) = s
  /\ Forall (fun c => 1 <= String.length c <= l) (slices s l)
  /\ split s l <> None.
Proof.
  intros Hl. unfold slices, range_step.
  destruct (range_step_bounds (String.length s) l Hl) as [Hup Hlow].
  split; [| split].
  - rewrite <- (map_map (fun i => firstn l (skipn i (chars s))) str).
    rewrite join_map_str, concat_slices.
    rewrite firstn_all2 by (rewrite length_chars; exact Hup).
    apply PyFacts.str_chars.
  - rewrite !Forall_map. apply List.Forall_forall. intros k Hk.
    apply in_seq in Hk. specialize (Hlow k ltac:(lia)).
    rewrite length_str, length_firstn, length_skipn, length_chars. lia.
  - unfold split. destruct (Nat.ltb (String.length s) l); [discriminate |].
    destruct (Nat.eqb_spec l 0); [lia | discriminate].
Qed.

Lemma slices_rebuild_string_witness :
  join (slices "abcdefgh" 3) = "abcdefgh".
Proof. apply (slices_rebuild_string "abcdefgh" 3). lia. Defined.



End GeneratorFacts.

(* ===================================================================== *)
(** ** The phonetic alphabet *)
(* ===================================================================== *)

Module PhoneticFacts.
Import Py Eff Phonetic.










End PhoneticFacts.

(* ===================================================================== *)
(** ** Calls of get_writer *)
(* ===================================================================== *)

Module CallFacts.
Import Py Eff Writer Calls.

Lemma forallb_fails {A} (f : A -> bool) (l : list A) (x : A) :
  In x l -> f x = false -> forallb f l = false.
Proof.
  intros Hin Hf. destruct (forallb f l) eqn:E; [| reflexivity].
  rewrite forallb_forall in E. now rewrite (E x Hin) in Hf.
Qed.

Lemma in_skipn {A} (x : A) (n : nat) (l : list A) :
  In x (skipn n l) -> In x l.
Proof.
  intros H. rewrite <- (firstn_skipn n l). apply in_or_app. now right.
Qed.

(** X27. [get_writer] knows the keywords [display], [clipboard] and
    [stdout] only: a call with any other keyword, such as the
    [get_writer(tty=True)] and [get_writer(tty=False)] of [command.py],
    raises TypeError and returns no writer.  Called with [clipboard] and
    [stdout] alone it never returns the keyboard writer, and the
    clipboard wins over the standard output; called without arguments it
    returns the terminal writer. *)
Theorem get_writer_rejects_unknown_keywords :
  (forall pos kw k v,
      In (k, v) kw ->
      ~ In k ["display"; "clipboard"; "stdout"] ->
      get_writer_call pos kw = raise TypeError)
  /\ (forall c s,
         get_writer_call [] [("clipboard", c); ("stdout", s)]
         = ret (if c then ClipboardWriter
                else if s then StdoutWriter else TTY_Writer))
  /\ get_writer_call [] [] = ret TTY_Writer.
Proof.
  split; [| split; [intros [] []; reflexivity | reflexivity]].
  intros pos kw k v Hin Hk. unfold get_writer_call, bind_call.
  assert (Hf : forallb (fun k => str_in k (map fst (skipn (length pos) get_writer_params)))
                 (map fst kw) = false).
  { apply (forallb_fails _ _ k).
    - apply (in_map fst) in Hin. exact Hin.
    - destruct (str_in k _) eqn:E; [| reflexivity].
      exfalso. apply Hk. unfold str_in in E. apply existsb_exists in E.
      destruct E as (x & Hx & He). apply String.eqb_eq in He. subst x.
      apply (in_map_iff fst) in Hx. destruct Hx as ((n, d) & <- & Hp).
      apply in_skipn in Hp. cbn in Hp.
      destruct Hp as [[= <- _] | [[= <- _] | [[= <- _] | []]]]; cbn; auto. }
  rewrite Hf, andb_false_r. reflexivity.
Qed.

Lemma get_writer_rejects_unknown_keywords_witness :
  get_writer_call [] [("tty", true)] = raise TypeError.
Proof.
  destruct get_writer_rejects_unknown_keywords as [H _].
  apply (H [] [("tty", true)] "tty" true).
  - now left.
  - intros [E | [E | [E | []]]]; discriminate E.
Defined.

End CallFacts.
